(** * Event counter logger: sampling, interval aggregation and recording

    A shallow embedding of [counter_script.py]: the SCPI query made by
    [ScopeConnection.query], the sampler [read_counter_value], and the
    sampling loop and shutdown handler of [main].

    Modelling conventions.
    - Counter readings are the values of an event counter.  They are
      integer valued, and on integers below 2^53 the float subtraction,
      addition and comparison of the script are exact and [int(...)] is the
      identity; readings are therefore [Z] and that arithmetic is [Z]
      arithmetic.  Python's [float(...)] on a reply token is a parameter of
      the development ([py_float]), [None] standing for [ValueError].
      A theorem whose truth rests on that exactness says so: it assumes
      the readings between 0 and [float_exact_max].  Replies that are not
      integers are not described: on them [int(...)] truncates and the
      sums round.
    - [time.time()] and [datetime.now().strftime(...)] are observations of
      the environment: every call site receives its result as an input
      (seconds as [Q], timestamps as strings).  The rate column is the exact
      quotient; its three-decimal rendering is not modelled.
    - Replies are ASCII text; [strip] and [upper] act on ASCII characters.
    - The output file and the terminal are lists written in order.
    - [KeyboardInterrupt] is delivered while the loop waits (in
      [time.sleep] or in the blocking [recv]), so a run is a number of
      complete loop iterations followed by the handler.
    - [main] is described on its three returns: after a failed connect,
      after a failed seed reading, and after the interrupted loop.  A run
      in which [open], [writerow] or [flush] raises is not described. *)

From Stdlib Require Import ZArith QArith String Ascii List Bool Lia.
Import ListNotations.

#[local] Open Scope string_scope.
#[local] Open Scope list_scope.
#[local] Open Scope Z_scope.

(** ** Text helpers used by the sampler *)

Module PyStr.

(** The ASCII characters [str.strip()] removes. *)
Definition is_space (c : ascii) : bool :=
  let n := nat_of_ascii c in
  ((9 <=? n) && (n <=? 13) || (28 <=? n) && (n <=? 32))%nat.

Fixpoint lstrip (s : string) : string :=
  match s with
  | String c s' => if is_space c then lstrip s' else s
  | EmptyString => EmptyString
  end.

Fixpoint rstrip (s : string) : string :=
  match s with
  | String c s' =>
      match rstrip s' with
      | EmptyString => if is_space c then EmptyString else String c EmptyString
      | r => String c r
      end
  | EmptyString => EmptyString
  end.

Definition strip (s : string) : string := rstrip (lstrip s).

Definition upper_char (c : ascii) : ascii :=
  let n := nat_of_ascii c in
  if ((97 <=? n) && (n <=? 122))%nat then ascii_of_nat (n - 32) else c.

Fixpoint upper (s : string) : string :=
  match s with
  | String c s' => String (upper_char c) (upper s')
  | EmptyString => EmptyString
  end.

(** [needle in s] *)
Fixpoint contains (needle s : string) : bool :=
  String.prefix needle s ||
  match s with
  | String _ s' => contains needle s'
  | EmptyString => false
  end.

(** [s.split(',')[0]]: the text before the first comma. *)
Fixpoint first_field (s : string) : string :=
  match s with
  | String c s' =>
      if Ascii.eqb c ","%char then EmptyString else String c (first_field s')
  | EmptyString => EmptyString
  end.

Definition is_empty (s : string) : bool :=
  match s with EmptyString => true | _ => false end.

End PyStr.

(** ** Output file rows and terminal output *)

Record Row := {
  row_index : Z;
  row_start : string;
  row_end : string;
  row_events : Z;
  row_rate : Q;
  row_cumulative : Z
}.

Inductive Msg :=
| MsgBanner
| MsgConnectionError
| MsgFailedToConnect
| MsgSendError
| MsgQueryError
| MsgConnectedTo (idn : string)
| MsgInitialReadError
| MsgInitialCounter (v : Z)
| MsgStarting
| MsgCounterReset (was now : Z)
| MsgInterval (r : Row)
| MsgStatus (time_in_interval : Q) (events total : Z)
| MsgFailedRead
| MsgStopped
| MsgSavedFinal (events : Z)
| MsgDataSaved
| MsgTotalIntervals (n : Z)
| MsgTotalEvents (n : Z)
| MsgAverage (total n : Z)
| MsgConnectionClosed.

Inductive CsvLine :=
| HeaderLine
| DataLine (r : Row).

(** ** The instrument link *)

(** What [sock.recv(4096).decode('utf-8')] does in one query: it delivers
    text, raises [socket.timeout], or raises something else (a socket
    error, or undecodable bytes). *)
Inductive RecvResult :=
| Recv (raw : string)
| RecvTimeout
| RecvRaise.

(** One command/response exchange: whether [sendall] raised, and what the
    read did. *)
Record Exchange := {
  send_raises : bool;
  recv : RecvResult
}.

(** [ScopeConnection.send_command]: an exception is reported, not raised. *)
Definition send_command (x : Exchange) : list Msg :=
  if send_raises x then [MsgSendError] else [].

(** [ScopeConnection.query] *)
Definition query (x : Exchange) : option string * list Msg :=
  let out := send_command x in
  match recv x with
  | Recv raw => (Some (PyStr.strip raw), out)
  | RecvTimeout => (None, out)
  | RecvRaise => (None, out ++ [MsgQueryError])
  end.

Section Logger.

(** Python's [float] on a reply token; [None] when it raises. *)
Variable py_float : string -> option Z.

(** [read_counter_value] *)
Definition read_counter_value (x : Exchange) : option Z * list Msg :=
  let '(result, out) := query x in
  match result with
  | Some r =>
      if negb (PyStr.is_empty r)
         && negb (PyStr.contains "ERROR" (PyStr.upper r))
      then (py_float (PyStr.first_field r), out)
      else (None, out)
  | None => (None, out)
  end.

(** ** The aggregation state of [main] *)

Record AggState := {
  last_counter : Z;
  interval_start_counter : Z;
  cumulative_events : Z;
  interval_count : Z;
  interval_start_time : Q;
  interval_start_timestamp : string
}.

(** What the process has written so far: the lines of the open output file
    and the lines of the terminal. *)
Record Output := {
  csv : list CsvLine;
  terminal : list Msg
}.

Definition print (ms : list Msg) (o : Output) : Output :=
  {| csv := csv o; terminal := terminal o ++ ms |}.

(** [csv_writer.writerow(...)] followed by [csvfile.flush()] *)
Definition writerow (l : CsvLine) (o : Output) : Output :=
  {| csv := csv o ++ [l]; terminal := terminal o |}.

(** [open(OUTPUT_FILE, 'w', newline='')]: whatever the path held before,
    the opened file is empty. *)
Definition open_w (previous : option (list CsvLine)) : list CsvLine := [].

Definition Qlt_bool (a b : Q) : bool := negb (Qle_bool b a).

(** [events / elapsed if elapsed > 0 else 0] *)
Definition rate_of (events : Z) (elapsed : Q) : Q :=
  if Qlt_bool 0 elapsed then (inject_Z events / elapsed)%Q else 0%Q.

(** The environment as one loop iteration observes it, in call order. *)
Record Tick := {
  tick_exchange : Exchange;   (* the counter query *)
  tick_now : Q;               (* time.time() of the elapsed check *)
  tick_end_stamp : string;    (* interval_end_timestamp *)
  tick_reset_now : Q;         (* time.time() of the window reset *)
  tick_reset_stamp : string;  (* timestamp of the window reset *)
  tick_status_now : Q         (* time.time() of the status line *)
}.

(** The environment as a whole run observes it. *)
Record Session := {
  connect_raises : bool;
  idn_exchange : Exchange;
  initial_exchange : Exchange;
  start_now : Q;
  start_stamp : string;
  ticks : list Tick;
  final_exchange : Exchange;
  final_now : Q;
  final_stamp : string
}.

(** The observable result of a run. *)
Record World := {
  disk : option (list CsvLine);   (* OUTPUT_FILE; [None] when absent *)
  csvfile_closed : bool;
  socket_closed : bool;
  screen : list Msg
}.

(** [INTERVAL_SECONDS], from [--interval] *)
Variable INTERVAL_SECONDS : Z.

(** Per-sample accounting: the delta, the rollover substitution, the
    running total and [last_counter]. *)
Definition account_sample (counter : Z) (s : AggState) (o : Output)
  : AggState * Output :=
  let events_delta := counter - last_counter s in
  let '(events_delta, o) :=
    if events_delta <? 0
    then (counter, print [MsgCounterReset (last_counter s) counter] o)
    else (events_delta, o) in
  ({| last_counter := counter;
      interval_start_counter := interval_start_counter s;
      cumulative_events := cumulative_events s + events_delta;
      interval_count := interval_count s;
      interval_start_time := interval_start_time s;
      interval_start_timestamp := interval_start_timestamp s |}, o).

(** The body of [if elapsed >= INTERVAL_SECONDS]: one row, one progress
    line, and the window reset. *)
Definition close_interval (tk : Tick) (counter : Z) (elapsed : Q)
  (s : AggState) (o : Output) : AggState * Output :=
  let interval_events := counter - interval_start_counter s in
  let interval_events :=
    if interval_events <? 0 then counter else interval_events in
  let interval_count' := interval_count s + 1 in
  let rate := rate_of interval_events elapsed in
  let row := {| row_index := interval_count';
                row_start := interval_start_timestamp s;
                row_end := tick_end_stamp tk;
                row_events := interval_events;
                row_rate := rate;
                row_cumulative := cumulative_events s |} in
  ({| last_counter := last_counter s;
      interval_start_counter := counter;
      cumulative_events := cumulative_events s;
      interval_count := interval_count';
      interval_start_time := tick_reset_now tk;
      interval_start_timestamp := tick_reset_stamp tk |},
   print [MsgInterval row] (writerow (DataLine row) o)).

(** One iteration of [while True]. *)
Definition loop_body (tk : Tick) (s : AggState) (o : Output)
  : AggState * Output :=
  let '(counter, said) := read_counter_value (tick_exchange tk) in
  let o := print said o in
  match counter with
  | Some counter =>
      let '(s, o) := account_sample counter s o in
      let elapsed := (tick_now tk - interval_start_time s)%Q in
      let '(s, o) :=
        if Qle_bool (inject_Z INTERVAL_SECONDS) elapsed
        then close_interval tk counter elapsed s o
        else (s, o) in
      let current_interval_events := counter - interval_start_counter s in
      let time_in_interval := (tick_status_now tk - interval_start_time s)%Q in
      (s, print [MsgStatus time_in_interval current_interval_events
                   (cumulative_events s)] o)
  | None => (s, print [MsgFailedRead] o)
  end.

(** The iterations completed before the interrupt. *)
Fixpoint sampling_loop (tks : list Tick) (s : AggState) (o : Output)
  : AggState * Output :=
  match tks with
  | [] => (s, o)
  | tk :: rest =>
      let '(s', o') := loop_body tk s o in
      sampling_loop rest s' o'
  end.

(** The [except KeyboardInterrupt] handler. *)
Definition on_interrupt (e : Session) (s : AggState) (o : Output)
  : AggState * Output :=
  let o := print [MsgStopped] o in
  let '(final_counter, said) := read_counter_value (final_exchange e) in
  let o := print said o in
  let '(s, o) :=
    match final_counter with
    | Some final_counter =>
        let final_events := final_counter - interval_start_counter s in
        if 0 <? final_events then
          let interval_count' := interval_count s + 1 in
          let elapsed := (final_now e - interval_start_time s)%Q in
          let rate := rate_of final_events elapsed in
          let row := {| row_index := interval_count';
                        row_start := interval_start_timestamp s;
                        row_end := final_stamp e;
                        row_events := final_events;
                        row_rate := rate;
                        row_cumulative := cumulative_events s |} in
          ({| last_counter := last_counter s;
              interval_start_counter := interval_start_counter s;
              cumulative_events := cumulative_events s;
              interval_count := interval_count';
              interval_start_time := interval_start_time s;
              interval_start_timestamp := interval_start_timestamp s |},
           print [MsgSavedFinal final_events] (writerow (DataLine row) o))
        else (s, o)
    | None => (s, o)
    end in
  let o := print [MsgDataSaved; MsgTotalIntervals (interval_count s);
                  MsgTotalEvents (cumulative_events s)] o in
  let o := if 0 <? interval_count s
           then print [MsgAverage (cumulative_events s) (interval_count s)] o
           else o in
  (s, o).

(** The state with which the loop is entered. *)
Definition initial_state (e : Session) (initial_counter : Z) : AggState :=
  {| last_counter := initial_counter;
     interval_start_counter := initial_counter;
     cumulative_events := 0;
     interval_count := 0;
     interval_start_time := start_now e;
     interval_start_timestamp := start_stamp e |}.

(** The [with open(...)] block: header, loop, handler.  Returns the final
    aggregation state with what was written. *)
Definition logging (previous : option (list CsvLine)) (e : Session)
  (initial_counter : Z) (before : list Msg) : AggState * Output :=
  let o := {| csv := open_w previous; terminal := before |} in
  let o := writerow HeaderLine o in
  let s := initial_state e initial_counter in
  let '(s, o) := sampling_loop (ticks e) s o in
  on_interrupt e s o.

(** [main], from a path holding [previous]. *)
Definition main (previous : option (list CsvLine)) (e : Session) : World :=
  let said := [MsgBanner] in
  if connect_raises e then
    {| disk := previous; csvfile_closed := false; socket_closed := false;
       screen := said ++ [MsgConnectionError; MsgFailedToConnect] |}
  else
    let '(idn, q) := query (idn_exchange e) in
    let said := said ++ q ++
      match idn with
      | Some r => if PyStr.is_empty r then [] else [MsgConnectedTo r]
      | None => []
      end in
    let '(initial_counter, q) := read_counter_value (initial_exchange e) in
    let said := said ++ q in
    match initial_counter with
    | None =>
        {| disk := previous; csvfile_closed := false; socket_closed := true;
           screen := said ++ [MsgInitialReadError] |}
    | Some initial_counter =>
        let said := said ++ [MsgInitialCounter initial_counter; MsgStarting] in
        let '(_, o) := logging previous e initial_counter said in
        {| disk := Some (csv o); csvfile_closed := true; socket_closed := true;
           screen := terminal o ++ [MsgConnectionClosed] |}
    end.

(** What a run has printed when it enters the loop with seed
    [initial_counter]. *)
Definition startup_lines (e : Session) (initial_counter : Z) : list Msg :=
  (([MsgBanner] ++ snd (query (idn_exchange e)) ++
    match fst (query (idn_exchange e)) with
    | Some r => if PyStr.is_empty r then [] else [MsgConnectedTo r]
    | None => []
    end) ++ snd (read_counter_value (initial_exchange e)))
  ++ [MsgInitialCounter initial_counter; MsgStarting].

(** The counter value a loop iteration obtains, if any. *)
Definition reading (tk : Tick) : option Z :=
  fst (read_counter_value (tick_exchange tk)).

(** The successful readings of a sequence of iterations, in order. *)
Fixpoint readings (tks : list Tick) : list Z :=
  match tks with
  | [] => []
  | tk :: rest =>
      match reading tk with
      | Some v => v :: readings rest
      | None => readings rest
      end
  end.

End Logger.

(** ** Reading a run's output *)

Fixpoint data_rows (ls : list CsvLine) : list Row :=
  match ls with
  | [] => []
  | HeaderLine :: rest => data_rows rest
  | DataLine r :: rest => r :: data_rows rest
  end.

Fixpoint sum_events (rs : list Row) : Z :=
  match rs with
  | [] => 0
  | r :: rest => row_events r + sum_events rest
  end.

Definition last_cumulative (rs : list Row) : Z :=
  last (map row_cumulative rs) 0.

(** Counter sequences: each value at least (resp. more than) the one
    before, starting from [v]. *)
Fixpoint nondecreasing_from (v : Z) (vs : list Z) : bool :=
  match vs with
  | [] => true
  | w :: rest => (v <=? w) && nondecreasing_from w rest
  end.

Fixpoint increasing_from (v : Z) (vs : list Z) : bool :=
  match vs with
  | [] => true
  | w :: rest => (v <? w) && increasing_from w rest
  end.

(** The file holds the header followed by rows numbered 1, 2, ... and
    [interval_count] is the number of rows. *)
Definition well_indexed (s : AggState) (o : Output) : Prop :=
  exists rows,
    csv o = HeaderLine :: map DataLine rows /\
    map row_index rows = map Z.of_nat (seq 1 (length rows)) /\
    interval_count s = Z.of_nat (length rows).

(** [s', o'] continues [s, o] with no row, or with one row carrying the
    next index. *)
Definition row_step (s : AggState) (o : Output) (s' : AggState) (o' : Output)
  : Prop :=
  (csv o' = csv o /\ interval_count s' = interval_count s) \/
  (exists row,
      csv o' = csv o ++ [DataLine row] /\
      row_index row = interval_count s + 1 /\
      interval_count s' = interval_count s + 1).

(** The bookkeeping of a run seeded with [seed] in which the counter has
    not gone down so far: the running total is the distance from the seed
    to the last reading, and the rows account for the distance from the
    seed to the start of the open window. *)
Definition tallied (seed : Z) (s : AggState) (o : Output) : Prop :=
  seed <= interval_start_counter s <= last_counter s /\
  cumulative_events s = last_counter s - seed /\
  sum_events (data_rows (csv o)) = interval_start_counter s - seed /\
  last_cumulative (data_rows (csv o)) = interval_start_counter s - seed.

(** The reasons the specification names for a failed sample. *)
Inductive FailureReason :=
| Timeout
| ParseError
| EmptyResponse.

(** ** Shapes of replies and commands *)

Fixpoint all_space (s : string) : bool :=
  match s with
  | EmptyString => true
  | String c s' => PyStr.is_space c && all_space s'
  end.

Fixpoint no_space (s : string) : bool :=
  match s with
  | EmptyString => true
  | String c s' => negb (PyStr.is_space c) && no_space s'
  end.

Fixpoint comma_free (s : string) : bool :=
  match s with
  | EmptyString => true
  | String c s' => negb (Ascii.eqb c ","%char) && comma_free s'
  end.

Definition newline : string := String "010"%char EmptyString.

(** [command.endswith('\n')] *)
Fixpoint endswith_newline (s : string) : bool :=
  match s with
  | EmptyString => false
  | String c EmptyString => Ascii.eqb c "010"%char
  | String _ s' => endswith_newline s'
  end.

(** The text [send_command] hands to [sendall]: the command, with a line
    terminator added when it has none. *)
Definition command_line (command : string) : string :=
  if endswith_newline command then command
  else (command ++ newline)%string.

(** ** Shapes of the rows of a run *)

(** Rows with non-negative events and rates whose Cumulative Events
    column never goes down and stays below the running total. *)
Definition rows_sound (s : AggState) (o : Output) : Prop :=
  Forall (fun r => 0 <= row_events r /\ (0 <= row_rate r)%Q)
         (data_rows (csv o)) /\
  nondecreasing_from 0 (map row_cumulative (data_rows (csv o))) = true /\
  last_cumulative (data_rows (csv o)) <= cumulative_events s.

(** The Cumulative Events column is the running sum of the Events
    column. *)
Definition running_totals (rows : list Row) : Prop :=
  forall k row,
    nth_error rows k = Some row ->
    sum_events (firstn (S k) rows) = row_cumulative row.

(** What a sequence of readings adds to the running total, starting from
    [last_counter]: each reading adds its distance from the one before,
    or itself when it is below it. *)
Fixpoint tally (last_counter : Z) (vs : list Z) : Z :=
  match vs with
  | [] => 0
  | v :: rest =>
      (let events_delta := v - last_counter in
       if events_delta <? 0 then v else events_delta)
      + tally v rest
  end.

Definition is_average (m : Msg) : bool :=
  match m with
  | MsgAverage _ _ => true
  | _ => false
  end.

(** The events counted since the start of the open window cover the
    distance the counter has moved in it. *)
Definition window_covered (s : AggState) (o : Output) : Prop :=
  let pending := cumulative_events s - sum_events (data_rows (csv o)) in
  0 <= last_counter s /\
  last_counter s - interval_start_counter s <= pending /\
  (last_counter s <= pending \/ interval_start_counter s <= last_counter s).

(** ** The range in which the integers stand for the script's floats *)

(** Up to this magnitude binary64 holds every integer: on integer-valued
    readings between 0 and [float_exact_max] every difference, sum and
    [int(...)] the script takes is the integer one. *)
Definition float_exact_max : Z := 2 ^ 53.

(** ** Concrete runs *)

Module Sample.

(** [float] restricted to unsigned decimal integer literals. *)
Definition digit_of (c : ascii) : option Z :=
  let n := nat_of_ascii c in
  if ((48 <=? n) && (n <=? 57))%nat then Some (Z.of_nat (n - 48)) else None.

Fixpoint digits_value (acc : Z) (s : string) : option Z :=
  match s with
  | EmptyString => Some acc
  | String c s' =>
      match digit_of c with
      | Some d => digits_value (10 * acc + d) s'
      | None => None
      end
  end.

Definition float_of_digits (s : string) : option Z :=
  match s with
  | EmptyString => None
  | _ => digits_value 0 s
  end.

Definition reply (raw : string) : Exchange :=
  {| send_raises := false; recv := Recv raw |}.

Definition timed_out : Exchange :=
  {| send_raises := false; recv := RecvTimeout |}.

(** An iteration observing [x] with every clock read at second [t]. *)
Definition tick_at (t : Z) (x : Exchange) : Tick :=
  {| tick_exchange := x;
     tick_now := inject_Z t;
     tick_end_stamp := "end";
     tick_reset_now := inject_Z t;
     tick_reset_stamp := "start";
     tick_status_now := inject_Z t |}.

(** A run from second 0: seed reply, replies at the given seconds, and the
    reply to the handler's query at [t_final]. *)
Definition session (seed : string) (samples : list (Z * Exchange))
  (t_final : Z) (final : Exchange) : Session :=
  {| connect_raises := false;
     idn_exchange := reply "RIGOL TECHNOLOGIES,DHO924";
     initial_exchange := reply seed;
     start_now := 0%Q;
     start_stamp := "start";
     ticks := map (fun p => tick_at (fst p) (snd p)) samples;
     final_exchange := final;
     final_now := inject_Z t_final;
     final_stamp := "stop" |}.

(** Seed 0, one sample 5 inside the first minute, 8 at shutdown. *)
Definition late_events : Session :=
  session "0" [(1, reply "5")] 2 (reply "8").

(** Seed 100, a reset to 30, then 120 closing the first minute; shutdown
    reads 120 again. *)
Definition reset_then_pass : Session :=
  session "100" [(1, reply "30"); (60, reply "120")] 61 (reply "120").

(** Seed 0, samples 5, 12 and 20, the last one closing the window; 20 at
    shutdown. *)
Definition steady : Session :=
  session "0" [(20, reply "5"); (40, reply "12"); (65, reply "20")]
          66 (reply "20").

(** As [steady], with 26 at shutdown. *)
Definition steady_then_more : Session :=
  session "0" [(20, reply "5"); (40, reply "12"); (65, reply "20")]
          70 (reply "26").

(** As [steady], with the shutdown query timing out. *)
Definition steady_then_timeout : Session :=
  session "0" [(20, reply "5"); (40, reply "12"); (65, reply "20")]
          70 timed_out.

Definition run (e : Session) : World := main float_of_digits 60 None e.

(** Seed 0, samples 5 and 12 inside the first minute, and the shutdown
    query timing out. *)
Definition unclosed_then_timeout : Session :=
  session "0" [(20, reply "5"); (40, reply "12")] 50 timed_out.

Definition junk : Exchange := reply "counter?".

(** The state and output with which a run seeded with [v] enters the
    loop. *)
Definition seeded (v : Z) : AggState := initial_state steady v.

Definition fresh : Output := {| csv := [HeaderLine]; terminal := [] |}.

(** The file [steady_then_more] leaves. *)
Definition steady_then_more_file : list CsvLine :=
  [HeaderLine;
   DataLine {| row_index := 1; row_start := "start"; row_end := "end";
               row_events := 20; row_rate := (20 # 65)%Q;
               row_cumulative := 20 |};
   DataLine {| row_index := 2; row_start := "start"; row_end := "stop";
               row_events := 6; row_rate := (6 # 5)%Q;
               row_cumulative := 20 |}].

(** A file left by an earlier run. *)
Definition stale_file : list CsvLine :=
  [HeaderLine;
   DataLine {| row_index := 1; row_start := "then"; row_end := "later";
               row_events := 7; row_rate := (7 # 60)%Q;
               row_cumulative := 7 |}].

Definition empty_reply : Exchange := reply "".


(** The only row of [steady]. *)
Definition steady_row : Row :=
  {| row_index := 1; row_start := "start"; row_end := "end";
     row_events := 20; row_rate := (20 # 65)%Q; row_cumulative := 20 |}.

End Sample.

(** * Properties *)

Section Properties.

Variable py_float : string -> option Z.
Variable INTERVAL_SECONDS : Z.

#[local] Abbreviation read := (read_counter_value py_float).
#[local] Abbreviation body := (loop_body py_float INTERVAL_SECONDS).
#[local] Abbreviation loop := (sampling_loop py_float INTERVAL_SECONDS).
#[local] Abbreviation handler := (on_interrupt py_float).
#[local] Abbreviation reading := (reading py_float).
#[local] Abbreviation readings := (readings py_float).

(** ** Reading rows back *)

Lemma data_rows_app (a b : list CsvLine) :
  data_rows (a ++ b) = data_rows a ++ data_rows b.
Proof.
  induction a as [|[|r] a IH]; simpl; [reflexivity | exact IH | now rewrite IH].
Qed.

Lemma data_rows_map (rs : list Row) : data_rows (map DataLine rs) = rs.
Proof. induction rs as [|r rs IH]; simpl; [reflexivity | now rewrite IH]. Qed.

Lemma sum_events_app (a b : list Row) :
  sum_events (a ++ b) = sum_events a + sum_events b.
Proof. induction a as [|r a IH]; simpl; [reflexivity | rewrite IH; lia]. Qed.

Lemma last_cumulative_snoc (rs : list Row) (r : Row) :
  last_cumulative (rs ++ [r]) = row_cumulative r.
Proof.
  unfold last_cumulative. rewrite map_app. simpl. apply last_last.
Qed.

(** ** The pieces of one iteration *)

Lemma account_sample_eq (v : Z) (s : AggState) (o : Output) :
  account_sample v s o =
  ({| last_counter := v;
      interval_start_counter := interval_start_counter s;
      cumulative_events :=
        cumulative_events s
        + (if v - last_counter s <? 0 then v else v - last_counter s);
      interval_count := interval_count s;
      interval_start_time := interval_start_time s;
      interval_start_timestamp := interval_start_timestamp s |},
   if v - last_counter s <? 0
   then print [MsgCounterReset (last_counter s) v] o
   else o).
Proof.
  unfold account_sample. destruct (v - last_counter s <? 0); reflexivity.
Qed.

Lemma body_failed (tk : Tick) (s : AggState) (o : Output) :
  reading tk = None ->
  body tk s o =
  (s, print [MsgFailedRead] (print (snd (read (tick_exchange tk))) o)).
Proof.
  change (reading tk) with (fst (read (tick_exchange tk))).
  unfold loop_body.
  destruct (read (tick_exchange tk)) as [c said]. simpl.
  intros ->. reflexivity.
Qed.

Lemma body_sampled (tk : Tick) (s : AggState) (o : Output) (v : Z) :
  reading tk = Some v ->
  let so1 := account_sample v s (print (snd (read (tick_exchange tk))) o) in
  let elapsed := (tick_now tk - interval_start_time s)%Q in
  let so2 :=
    if Qle_bool (inject_Z INTERVAL_SECONDS) elapsed
    then close_interval tk v elapsed (fst so1) (snd so1)
    else so1 in
  body tk s o =
  (fst so2,
   print [MsgStatus (tick_status_now tk - interval_start_time (fst so2))%Q
            (v - interval_start_counter (fst so2))
            (cumulative_events (fst so2))] (snd so2)).
Proof.
  change (reading tk) with (fst (read (tick_exchange tk))).
  unfold loop_body.
  destruct (read (tick_exchange tk)) as [c said]. simpl.
  intros ->. rewrite account_sample_eq. simpl.
  destruct (Qle_bool (inject_Z INTERVAL_SECONDS)
              (tick_now tk - interval_start_time s)); reflexivity.
Qed.

Lemma loop_app (a b : list Tick) (s : AggState) (o : Output) :
  loop (a ++ b) s o = loop b (fst (loop a s o)) (snd (loop a s o)).
Proof.
  revert s o. induction a as [|tk a IH]; intros s o; simpl.
  - reflexivity.
  - destruct (body tk s o) as [s' o']. apply IH.
Qed.

(** ** Failed reads *)

(** C6: when the counter read of an iteration fails, the iteration leaves
    the aggregation state ([last_counter], [interval_start_counter],
    [interval_start_time], [cumulative_events], [interval_count]) as it
    was and writes no row; the loop goes on with the next iteration from
    that same state. *)
Theorem failed_read_changes_nothing
  (tk : Tick) (rest : list Tick) (s : AggState) (o : Output) :
  reading tk = None ->
  fst (body tk s o) = s /\
  csv (snd (body tk s o)) = csv o /\
  loop (tk :: rest) s o = loop rest s (snd (body tk s o)).
Proof.
  intros Hfail. rewrite (body_failed tk s o Hfail). simpl.
  rewrite (body_failed tk s o Hfail). auto.
Qed.

(** ** Rollover *)

(** C2: when a successful reading [v] is below [last_counter], the sample
    contributes [v] itself to [cumulative_events] and a counter-reset
    warning is printed (readings 100 then 30 contribute 30); when a window
    closes with [v] below [interval_start_counter], the row's event count
    is [v] as well. *)
Theorem rollover_substitution :
  (forall tk s o v,
      reading tk = Some v ->
      v - last_counter s < 0 ->
      cumulative_events (fst (body tk s o)) = cumulative_events s + v /\
      In (MsgCounterReset (last_counter s) v) (terminal (snd (body tk s o))))
  /\
  (forall tk s o v,
      reading tk = Some v ->
      last_counter s = 100 -> v = 30 ->
      cumulative_events (fst (body tk s o)) = cumulative_events s + 30)
  /\
  (forall tk s o v,
      reading tk = Some v ->
      Qle_bool (inject_Z INTERVAL_SECONDS)
               (tick_now tk - interval_start_time s) = true ->
      v - interval_start_counter s < 0 ->
      exists row,
        csv (snd (body tk s o)) = csv o ++ [DataLine row] /\
        row_events row = v).
Proof.
  assert (Hdelta : forall tk s o v,
             reading tk = Some v ->
             v - last_counter s < 0 ->
             cumulative_events (fst (body tk s o)) = cumulative_events s + v).
  { intros tk s o v Hv Hneg. rewrite (body_sampled tk s o v Hv).
    rewrite account_sample_eq. cbn zeta.
    apply Z.ltb_lt in Hneg. rewrite Hneg.
    destruct (Qle_bool _ _); reflexivity. }
  split; [|split].
  - intros tk s o v Hv Hneg. split; [now apply Hdelta|].
    rewrite (body_sampled tk s o v Hv). rewrite account_sample_eq. cbn zeta.
    apply Z.ltb_lt in Hneg. rewrite Hneg.
    destruct (Qle_bool _ _); simpl;
      repeat (rewrite in_app_iff; simpl); tauto.
  - intros tk s o v Hv Hlast ->. apply Hdelta; [exact Hv | lia].
  - intros tk s o v Hv Hdue Hneg. rewrite (body_sampled tk s o v Hv).
    rewrite account_sample_eq. cbn zeta. rewrite Hdue.
    apply Z.ltb_lt in Hneg. unfold close_interval. simpl. rewrite Hneg.
    destruct (v - last_counter s <? 0); eexists; split; reflexivity.
Qed.

(** ** Monotonicity of the running total *)

Lemma readings_app (a b : list Tick) :
  readings (a ++ b) = readings a ++ readings b.
Proof.
  induction a as [|tk a IH]; simpl; [reflexivity|].
  destruct (reading tk); simpl; now rewrite IH.
Qed.

Lemma body_cumulative_mono (tk : Tick) (s : AggState) (o : Output) :
  (forall v, reading tk = Some v -> 0 <= v) ->
  cumulative_events s <= cumulative_events (fst (body tk s o)).
Proof.
  intros Hpos. destruct (reading tk) as [v|] eqn:Hv.
  - specialize (Hpos v eq_refl).
    rewrite (body_sampled tk s o v Hv). rewrite account_sample_eq. cbn zeta.
    destruct (Qle_bool _ _); simpl;
      destruct (Z.ltb_spec (v - last_counter s) 0); lia.
  - rewrite (body_failed tk s o Hv). simpl. lia.
Qed.

Lemma loop_cumulative_mono (tks : list Tick) (s : AggState) (o : Output) :
  Forall (fun v => 0 <= v) (readings tks) ->
  cumulative_events s <= cumulative_events (fst (loop tks s o)).
Proof.
  revert s o. induction tks as [|tk tks IH]; intros s o Hpos; simpl.
  - lia.
  - pose proof (body_cumulative_mono tk s o) as Hstep.
    simpl in Hpos. destruct (body tk s o) as [s' o'] eqn:Hb. simpl in Hstep.
    destruct (reading tk) as [v|] eqn:Hv.
    + inversion Hpos as [|? ? Hv0 Hrest]; subst.
      specialize (IH s' o' Hrest).
      assert (cumulative_events s <= cumulative_events s').
      { apply Hstep. intros w Hw. now inversion Hw; subst. }
      lia.
    + specialize (IH s' o' Hpos).
      assert (cumulative_events s <= cumulative_events s').
      { apply Hstep. intros w Hw. discriminate. }
      lia.
Qed.

Lemma handler_state (e : Session) (s : AggState) (o : Output) :
  let s' := fst (handler e s o) in
  last_counter s' = last_counter s /\
  interval_start_counter s' = interval_start_counter s /\
  cumulative_events s' = cumulative_events s.
Proof.
  unfold on_interrupt.
  destruct (read (final_exchange e)) as [[vf|] said]; simpl.
  - destruct (0 <? vf - interval_start_counter s); simpl.
    + destruct (0 <? interval_count s + 1); simpl; auto.
    + destruct (0 <? interval_count s); simpl; auto.
  - destruct (0 <? interval_count s); simpl; auto.
Qed.

(** C7: when every successful reading is non-negative, [cumulative_events]
    never decreases: it does not decrease over any stretch of iterations
    of the loop (each sample adds a non-negative delta, the substituted
    one included), and the shutdown handler leaves it as it is. *)
Theorem cumulative_events_nondecreasing
  (a b : list Tick) (e : Session) (s : AggState) (o : Output) :
  Forall (fun v => 0 <= v) (readings (a ++ b)) ->
  let mid := loop a s o in
  let fin := loop (a ++ b) s o in
  cumulative_events s <= cumulative_events (fst mid) /\
  cumulative_events (fst mid) <= cumulative_events (fst fin) /\
  cumulative_events (fst (handler e (fst fin) (snd fin)))
  = cumulative_events (fst fin).
Proof.
  intros Hpos. rewrite readings_app in Hpos.
  apply Forall_app in Hpos. destruct Hpos as [Ha Hb].
  cbn zeta. rewrite loop_app. repeat split.
  - now apply loop_cumulative_mono.
  - now apply loop_cumulative_mono.
  - apply handler_state.
Qed.

(** ** Row numbering and file layout *)

Lemma body_row_step (tk : Tick) (s : AggState) (o : Output) :
  row_step s o (fst (body tk s o)) (snd (body tk s o)).
Proof.
  destruct (reading tk) as [v|] eqn:Hv.
  - rewrite (body_sampled tk s o v Hv). rewrite account_sample_eq. cbn zeta.
    destruct (Qle_bool _ _); simpl.
    + right. destruct (v - last_counter s <? 0); eexists; simpl; auto.
    + left. destruct (v - last_counter s <? 0); simpl; auto.
  - rewrite (body_failed tk s o Hv). left. simpl. auto.
Qed.

Lemma handler_row_step (e : Session) (s : AggState) (o : Output) :
  row_step s o (fst (handler e s o)) (snd (handler e s o)).
Proof.
  unfold on_interrupt.
  destruct (read (final_exchange e)) as [[vf|] said]; simpl.
  - destruct (0 <? vf - interval_start_counter s); simpl.
    + right. destruct (0 <? interval_count s + 1); eexists; simpl; auto.
    + left. destruct (0 <? interval_count s); simpl; auto.
  - destruct (0 <? interval_count s); left; simpl; auto.
Qed.

Lemma well_indexed_step (s s' : AggState) (o o' : Output) :
  well_indexed s o -> row_step s o s' o' -> well_indexed s' o'.
Proof.
  intros (rows & Hcsv & Hidx & Hcount) [[Hsame Hc]|(row & Hnew & Hi & Hc)].
  - exists rows. rewrite Hsame, Hc. auto.
  - exists (rows ++ [row]). rewrite Hnew, Hcsv, Hc, Hcount.
    rewrite !map_app, length_app. simpl.
    replace (length rows + 1)%nat with (S (length rows)) by lia.
    rewrite seq_S, map_app. simpl. rewrite Hidx, Hi, Hcount.
    repeat split; try reflexivity.
    + do 2 f_equal. lia.
    + lia.
Qed.

Lemma loop_well_indexed (tks : list Tick) (s : AggState) (o : Output) :
  well_indexed s o ->
  well_indexed (fst (loop tks s o)) (snd (loop tks s o)).
Proof.
  revert s o. induction tks as [|tk tks IH]; intros s o Hwi; simpl.
  - exact Hwi.
  - pose proof (body_row_step tk s o) as Hstep.
    destruct (body tk s o) as [s' o']. apply IH.
    eapply well_indexed_step; eauto.
Qed.

Lemma logging_well_indexed
  (previous : option (list CsvLine)) (e : Session) (v : Z)
  (before : list Msg) :
  well_indexed (fst (logging py_float INTERVAL_SECONDS previous e v before))
               (snd (logging py_float INTERVAL_SECONDS previous e v before)).
Proof.
  unfold logging.
  pose proof (loop_well_indexed (ticks e) (initial_state e v)
    (writerow HeaderLine {| csv := open_w previous; terminal := before |}))
    as Hloop.
  destruct (loop (ticks e) _ _) as [s o].
  eapply well_indexed_step; [|apply handler_row_step].
  apply Hloop. exists []. simpl. auto.
Qed.

Lemma numbered_nth (rows : list Row) (start : nat) :
  map row_index rows = map Z.of_nat (seq start (length rows)) ->
  forall k row,
    nth_error rows k = Some row -> row_index row = Z.of_nat (start + k).
Proof.
  revert start. induction rows as [|r rows IH]; intros start Hmap k row Hnth.
  - destruct k; discriminate.
  - simpl in Hmap. injection Hmap as Hr Hrest. destruct k as [|k]; simpl in Hnth.
    + injection Hnth as <-. rewrite Hr. f_equal. lia.
    + rewrite (IH (S start) Hrest k row Hnth). f_equal. lia.
Qed.

(** What [main] leaves behind once the connection and the seed reading
    have succeeded. *)
Lemma main_started
  (previous : option (list CsvLine)) (e : Session) (v : Z) :
  connect_raises e = false ->
  fst (read (initial_exchange e)) = Some v ->
  let run :=
    logging py_float INTERVAL_SECONDS previous e v
            (startup_lines py_float e v) in
  main py_float INTERVAL_SECONDS previous e =
  {| disk := Some (csv (snd run));
     csvfile_closed := true;
     socket_closed := true;
     screen := terminal (snd run) ++ [MsgConnectionClosed] |}.
Proof.
  intros Hconn Hseed. unfold main, startup_lines. rewrite Hconn.
  destruct (query (idn_exchange e)) as [idn q].
  destruct (read (initial_exchange e)) as [c q']. simpl in Hseed. subst c.
  simpl. destruct (logging _ _ _ _ _ _) as [s o]. reflexivity.
Qed.

(** C8: in the file a started run leaves behind, the k-th data row carries
    index k (rows are numbered 1, 2, 3, ... in the order in which they
    were appended), so indices start at 1 and increase strictly. *)
Theorem rows_numbered_in_write_order
  (previous : option (list CsvLine)) (e : Session) (v : Z)
  (lines : list CsvLine) (k : nat) (row : Row) :
  connect_raises e = false ->
  fst (read (initial_exchange e)) = Some v ->
  disk (main py_float INTERVAL_SECONDS previous e) = Some lines ->
  nth_error (data_rows lines) k = Some row ->
  row_index row = Z.of_nat k + 1.
Proof.
  intros Hconn Hseed Hdisk Hnth.
  rewrite (main_started previous e v Hconn Hseed) in Hdisk.
  simpl in Hdisk. injection Hdisk as <-.
  destruct (logging_well_indexed previous e v (startup_lines py_float e v))
    as (rows & Hcsv & Hidx & _).
  rewrite Hcsv in Hnth. simpl in Hnth. rewrite data_rows_map in Hnth.
  rewrite (numbered_nth rows 1 Hidx k row Hnth). lia.
Qed.

(** C9: a started run opens the output path for writing, which discards
    whatever the path held: the file it leaves is the header line followed
    by data rows only, the same whatever was there before. *)
Theorem output_file_truncated_header_first
  (previous : option (list CsvLine)) (e : Session) (v : Z) :
  connect_raises e = false ->
  fst (read (initial_exchange e)) = Some v ->
  exists rows,
    disk (main py_float INTERVAL_SECONDS previous e)
    = Some (HeaderLine :: map DataLine rows) /\
    disk (main py_float INTERVAL_SECONDS None e)
    = Some (HeaderLine :: map DataLine rows).
Proof.
  intros Hconn Hseed.
  destruct (logging_well_indexed previous e v (startup_lines py_float e v))
    as (rows & Hcsv & _ & _).
  exists rows.
  rewrite (main_started previous e v Hconn Hseed).
  rewrite (main_started None e v Hconn Hseed). simpl. split.
  - now rewrite Hcsv.
  - now rewrite <- Hcsv.
Qed.

(** ** Shutdown *)

Lemma logging_eq
  (previous : option (list CsvLine)) (e : Session) (v : Z)
  (before : list Msg) :
  let lp := loop (ticks e) (initial_state e v)
              (writerow HeaderLine
                 {| csv := open_w previous; terminal := before |}) in
  logging py_float INTERVAL_SECONDS previous e v before
  = handler e (fst lp) (snd lp).
Proof.
  unfold logging. cbn zeta. destruct (loop _ _ _) as [s o]. reflexivity.
Qed.




(** C10: when the counter read made by the shutdown handler fails, a
    started run writes no row beyond those of the loop and leaves
    [interval_count] as the loop left it; the file and the connection are
    closed and the totals are reported as usual. *)
Theorem failed_final_read_skips_trailing_row
  (previous : option (list CsvLine)) (e : Session) (v : Z) :
  connect_raises e = false ->
  fst (read (initial_exchange e)) = Some v ->
  fst (read (final_exchange e)) = None ->
  let lp := loop (ticks e) (initial_state e v)
              (writerow HeaderLine
                 {| csv := open_w previous;
                    terminal := startup_lines py_float e v |}) in
  let s := fst lp in
  let w := main py_float INTERVAL_SECONDS previous e in
  disk w = Some (csv (snd lp)) /\
  interval_count (fst (handler e s (snd lp))) = interval_count s /\
  csvfile_closed w = true /\
  socket_closed w = true /\
  screen w =
    terminal (snd lp)
    ++ [MsgStopped] ++ snd (read (final_exchange e))
    ++ [MsgDataSaved; MsgTotalIntervals (interval_count s);
        MsgTotalEvents (cumulative_events s)]
    ++ (if 0 <? interval_count s
        then [MsgAverage (cumulative_events s) (interval_count s)]
        else [])
    ++ [MsgConnectionClosed].
Proof.
  intros Hconn Hseed Hfinal. cbn zeta.
  rewrite (main_started previous e v Hconn Hseed). cbn zeta.
  rewrite logging_eq. cbn zeta.
  destruct (loop _ _ _) as [s o]. simpl fst. simpl snd.
  unfold on_interrupt.
  destruct (read (final_exchange e)) as [c said]. simpl in Hfinal. subst c.
  simpl. destruct (0 <? interval_count s); simpl;
    repeat split; rewrite <- ?app_assoc; reflexivity.
Qed.

(** ** The sampler's failures *)

Lemma is_empty_spec (r : string) : PyStr.is_empty r = true <-> r = "".
Proof. destruct r; simpl; split; congruence. Qed.

Lemma read_value (x : Exchange) :
  fst (read x) =
  match recv x with
  | Recv raw =>
      let r := PyStr.strip raw in
      if negb (PyStr.is_empty r)
         && negb (PyStr.contains "ERROR" (PyStr.upper r))
      then py_float (PyStr.first_field r)
      else None
  | RecvTimeout | RecvRaise => None
  end.
Proof.
  unfold read_counter_value, query.
  destruct (recv x) as [raw| |]; cbv beta iota zeta; try reflexivity.
  destruct (negb _ && negb _); reflexivity.
Qed.

(** C4, as the code has it: the sampler is a total function (it raises
    nothing), and an attempt yields no value, the single result [None],
    exactly when the read timed out, raised otherwise, or delivered a
    reply that is empty, mentions ERROR, or whose first field is not a
    number; the reasons share that one result. *)
Theorem failed_sample_returns_none (x : Exchange) :
  (fst (read x) = None <->
   recv x = RecvTimeout \/
   recv x = RecvRaise \/
   exists raw,
     recv x = Recv raw /\
     (PyStr.strip raw = "" \/
      PyStr.contains "ERROR" (PyStr.upper (PyStr.strip raw)) = true \/
      py_float (PyStr.first_field (PyStr.strip raw)) = None)) /\
  (forall v,
     fst (read x) = Some v ->
     exists raw,
       recv x = Recv raw /\
       py_float (PyStr.first_field (PyStr.strip raw)) = Some v).
Proof.
  rewrite read_value. destruct (recv x) as [raw| |].
  - remember (PyStr.strip raw) as r eqn:Hr. cbn zeta.
    pose proof (is_empty_spec r) as Hempty.
    destruct (PyStr.is_empty r); simpl negb; simpl andb.
    + split; [|discriminate].
      split; [|reflexivity].
      intros _. right. right. exists raw. rewrite <- Hr.
      split; [reflexivity|]. left. now apply Hempty.
    + destruct (PyStr.contains "ERROR" (PyStr.upper r)) eqn:Herr;
        simpl negb.
      * split; [|discriminate].
        split; [|reflexivity].
        intros _. right. right. exists raw. rewrite <- Hr. auto.
      * split.
        -- split.
           ++ intros Hnone. right. right. exists raw. rewrite <- Hr. auto.
           ++ intros [H|[H|(raw' & Hraw & H)]]; try discriminate.
              injection Hraw as <-. rewrite <- Hr in H.
              destruct H as [H|[H|H]].
              ** apply Hempty in H. discriminate.
              ** congruence.
              ** exact H.
        -- intros v Hv. exists raw. rewrite <- Hr. auto.
  - split; [split; auto | discriminate].
  - split; [split; auto | discriminate].
Qed.

(** ** Runs without rollover *)

Lemma last_cons (a : list Z) (x v : Z) : last (x :: a) v = last a x.
Proof.
  revert x v. induction a as [|y a IH]; intros x v; [reflexivity|].
  change (last (x :: y :: a) v) with (last (y :: a) v).
  now rewrite (IH y v), (IH y x).
Qed.

Lemma nondecreasing_snoc (a : list Z) (v w : Z) :
  nondecreasing_from v (a ++ [w]) = true <->
  nondecreasing_from v a = true /\ last a v <= w.
Proof.
  revert v. induction a as [|x a IH]; intros v.
  - simpl. rewrite andb_true_r, Z.leb_le. tauto.
  - rewrite last_cons. cbn [app nondecreasing_from].
    rewrite !andb_true_iff, IH. tauto.
Qed.

Lemma increasing_nondecreasing (v : Z) (vs : list Z) :
  increasing_from v vs = true -> nondecreasing_from v vs = true.
Proof.
  revert v. induction vs as [|w vs IH]; intros v; simpl; [reflexivity|].
  rewrite !andb_true_iff, Z.ltb_lt, Z.leb_le. intros [Hlt Hrest].
  split; [lia | now apply IH].
Qed.

Lemma body_last_counter (tk : Tick) (s : AggState) (o : Output) :
  last_counter (fst (body tk s o))
  = match reading tk with Some v => v | None => last_counter s end.
Proof.
  destruct (reading tk) as [v|] eqn:Hv.
  - rewrite (body_sampled tk s o v Hv). rewrite account_sample_eq. cbn zeta.
    destruct (Qle_bool _ _); reflexivity.
  - now rewrite (body_failed tk s o Hv).
Qed.

Lemma loop_last_counter (tks : list Tick) (s : AggState) (o : Output) :
  last_counter (fst (loop tks s o)) = last (readings tks) (last_counter s).
Proof.
  revert s o. induction tks as [|tk tks IH]; intros s o; simpl; [reflexivity|].
  pose proof (body_last_counter tk s o) as Hlast.
  destruct (body tk s o) as [s' o']. simpl in Hlast. rewrite IH, Hlast.
  destruct (reading tk) as [v|]; [|reflexivity].
  now rewrite last_cons.
Qed.

Lemma body_tallied (seed : Z) (tk : Tick) (s : AggState) (o : Output) :
  tallied seed s o ->
  (forall v, reading tk = Some v -> last_counter s <= v) ->
  tallied seed (fst (body tk s o)) (snd (body tk s o)).
Proof.
  intros (Hord & Hcum & Hsum & Hlast) Hup.
  destruct (reading tk) as [v|] eqn:Hv.
  - specialize (Hup v eq_refl).
    rewrite (body_sampled tk s o v Hv). rewrite account_sample_eq. cbn zeta.
    assert (Hno : (v - last_counter s <? 0) = false) by (apply Z.ltb_ge; lia).
    rewrite Hno.
    destruct (Qle_bool _ _); unfold tallied, close_interval; simpl.
    + assert (Hno' : (v - interval_start_counter s <? 0) = false)
        by (apply Z.ltb_ge; lia).
      rewrite Hno'. rewrite data_rows_app, sum_events_app. simpl.
      rewrite last_cumulative_snoc. simpl. lia.
    + lia.
  - rewrite (body_failed tk s o Hv). unfold tallied. simpl. lia.
Qed.

Lemma loop_tallied (seed : Z) (tks : list Tick) (s : AggState) (o : Output) :
  tallied seed s o ->
  nondecreasing_from (last_counter s) (readings tks) = true ->
  tallied seed (fst (loop tks s o)) (snd (loop tks s o)).
Proof.
  revert s o. induction tks as [|tk tks IH]; intros s o Ht Hup; simpl.
  - exact Ht.
  - pose proof (body_tallied seed tk s o Ht) as Hstep.
    pose proof (body_last_counter tk s o) as Hlast.
    simpl in Hup.
    destruct (body tk s o) as [s' o']. simpl in Hstep, Hlast.
    destruct (reading tk) as [v|].
    + simpl in Hup. apply andb_true_iff in Hup. destruct Hup as [Hle Hrest].
      apply Z.leb_le in Hle. apply IH.
      * apply Hstep. intros w Hw. injection Hw as <-. exact Hle.
      * now rewrite Hlast.
    + apply IH.
      * apply Hstep. discriminate.
      * now rewrite Hlast.
Qed.

Lemma initial_tallied
  (previous : option (list CsvLine)) (e : Session) (v : Z)
  (before : list Msg) :
  tallied v (initial_state e v)
    (writerow HeaderLine {| csv := open_w previous; terminal := before |}).
Proof. unfold tallied, last_cumulative. simpl. lia. Qed.

(** What the handler adds to a tallied run when its own reading [vf] is
    not below the last sample. *)
Lemma handler_tallied
  (seed : Z) (e : Session) (s : AggState) (o : Output) (vf : Z) :
  tallied seed s o ->
  fst (read (final_exchange e)) = Some vf ->
  last_counter s <= vf ->
  let fin := handler e s o in
  sum_events (data_rows (csv (snd fin))) = vf - seed /\
  cumulative_events (fst fin) = last_counter s - seed /\
  (vf = last_counter s ->
   last_cumulative (data_rows (csv (snd fin))) = last_counter s - seed).
Proof.
  intros (Hord & Hcum & Hsum & Hlast) Hvf Hle. cbn zeta.
  unfold on_interrupt.
  destruct (read (final_exchange e)) as [c said]. simpl in Hvf. subst c.
  simpl.
  destruct (Z.ltb_spec 0 (vf - interval_start_counter s)) as [Hpos|Hnpos];
    simpl.
  - destruct (0 <? interval_count s + 1); simpl;
      rewrite data_rows_app; simpl;
      rewrite sum_events_app, last_cumulative_snoc; simpl;
      repeat split; lia.
  - destruct (0 <? interval_count s); simpl; repeat split; lia.
Qed.

Lemma logging_no_rollover
  (previous : option (list CsvLine)) (e : Session) (v vf : Z)
  (before : list Msg) :
  fst (read (final_exchange e)) = Some vf ->
  nondecreasing_from v (readings (ticks e) ++ [vf]) = true ->
  let fin := logging py_float INTERVAL_SECONDS previous e v before in
  sum_events (data_rows (csv (snd fin))) = vf - v /\
  cumulative_events (fst fin) = last (readings (ticks e)) v - v /\
  (vf = last (readings (ticks e)) v ->
   last_cumulative (data_rows (csv (snd fin)))
   = last (readings (ticks e)) v - v).
Proof.
  intros Hvf Hup. apply nondecreasing_snoc in Hup. destruct Hup as [Hup Hle].
  cbn zeta. rewrite logging_eq. cbn zeta.
  pose proof (loop_tallied v (ticks e) (initial_state e v) _
                (initial_tallied previous e v before) Hup) as Ht.
  pose proof (loop_last_counter (ticks e) (initial_state e v)
                (writerow HeaderLine
                   {| csv := open_w previous; terminal := before |})) as Hl.
  simpl in Hl. rewrite <- Hl in *.
  apply handler_tallied; assumption.
Qed.

(** C3, as the code has it: when the seed, the samples and the reading
    taken at shutdown are integers between 0 and [float_exact_max] and
    form a strictly increasing sequence, the shutdown reading having
    succeeded, the events of all rows of the run, the trailing one
    included, add up to the shutdown reading minus the seed. *)
Theorem events_sum_is_counter_span
  (previous : option (list CsvLine)) (e : Session) (v vf : Z)
  (before : list Msg) :
  0 <= v ->
  vf <= float_exact_max ->
  fst (read (final_exchange e)) = Some vf ->
  increasing_from v (readings (ticks e) ++ [vf]) = true ->
  sum_events
    (data_rows
       (csv (snd (logging py_float INTERVAL_SECONDS previous e v before))))
  = vf - v.
Proof.
  intros _ _ Hvf Hinc. apply increasing_nondecreasing in Hinc.
  apply (logging_no_rollover previous e v vf before Hvf Hinc).
Qed.

(** C1, as the code has it: in a run whose readings are integers between
    0 and [float_exact_max], never go down, and whose shutdown reading
    equals the last sampled value, the events of all rows add up to the
    final [cumulative_events], which is also the Cumulative Events value
    of the last row written. *)
Theorem events_sum_is_cumulative_total
  (previous : option (list CsvLine)) (e : Session) (v : Z)
  (before : list Msg) :
  0 <= v ->
  last (readings (ticks e)) v <= float_exact_max ->
  nondecreasing_from v (readings (ticks e)) = true ->
  fst (read (final_exchange e)) = Some (last (readings (ticks e)) v) ->
  let fin := logging py_float INTERVAL_SECONDS previous e v before in
  sum_events (data_rows (csv (snd fin))) = cumulative_events (fst fin) /\
  last_cumulative (data_rows (csv (snd fin))) = cumulative_events (fst fin).
Proof.
  intros _ _ Hup Hvf. cbn zeta.
  assert (Hup' : nondecreasing_from v
                   (readings (ticks e) ++ [last (readings (ticks e)) v])
                 = true).
  { apply nondecreasing_snoc. split; [exact Hup | lia]. }
  destruct (logging_no_rollover previous e v _ before Hvf Hup')
    as (Hsum & Hcum & Hlast).
  rewrite Hsum, Hcum, (Hlast eq_refl). auto.
Qed.

(** * Further properties of the sampler and the link *)

(** ** Text helpers *)

Lemma lstrip_padding (pre s : string) :
  all_space pre = true -> PyStr.lstrip (pre ++ s)%string = PyStr.lstrip s.
Proof.
  induction pre as [|c pre IH]; simpl; [reflexivity|].
  intros H. apply andb_true_iff in H. destruct H as [Hc Hpre].
  rewrite Hc. now apply IH.
Qed.

Lemma rstrip_all_space (post : string) :
  all_space post = true -> PyStr.rstrip post = EmptyString.
Proof.
  induction post as [|c post IH]; simpl; [reflexivity|].
  intros H. apply andb_true_iff in H. destruct H as [Hc Hpost].
  rewrite (IH Hpost), Hc. reflexivity.
Qed.

Lemma rstrip_padding (s post : string) :
  all_space post = true -> PyStr.rstrip (s ++ post)%string = PyStr.rstrip s.
Proof.
  intros Hpost. induction s as [|c s IH]; simpl.
  - now apply rstrip_all_space.
  - now rewrite IH.
Qed.

Lemma lstrip_all_space (s : string) :
  all_space s = true -> PyStr.lstrip s = EmptyString.
Proof.
  induction s as [|c s IH]; simpl; [reflexivity|].
  intros H. apply andb_true_iff in H. destruct H as [Hc Hs].
  rewrite Hc. now apply IH.
Qed.

Lemma strip_trailing (s post : string) :
  all_space post = true ->
  PyStr.rstrip (PyStr.lstrip (s ++ post)%string)
  = PyStr.rstrip (PyStr.lstrip s).
Proof.
  intros Hpost. induction s as [|c s IH].
  - simpl. now rewrite (lstrip_all_space post Hpost).
  - cbn [append PyStr.lstrip]. destruct (PyStr.is_space c).
    + exact IH.
    + change (String c (s ++ post)%string) with (String c s ++ post)%string.
      now apply rstrip_padding.
Qed.

Lemma strip_padding (pre s post : string) :
  all_space pre = true -> all_space post = true ->
  PyStr.strip (pre ++ s ++ post)%string = PyStr.strip s.
Proof.
  intros Hpre Hpost. unfold PyStr.strip.
  rewrite (lstrip_padding pre _ Hpre). now apply strip_trailing.
Qed.

(** X15: blanks, tabs and line ends around a reply do not change what the
    sampler makes of it: value and printed lines are those of the bare
    reply. *)
Theorem sample_ignores_surrounding_whitespace
  (send_failed : bool) (pre raw post : string) :
  all_space pre = true ->
  all_space post = true ->
  read {| send_raises := send_failed;
          recv := Recv (pre ++ raw ++ post)%string |}
  = read {| send_raises := send_failed; recv := Recv raw |}.
Proof.
  intros Hpre Hpost. unfold read_counter_value, query. cbn [recv].
  now rewrite (strip_padding pre raw post Hpre Hpost).
Qed.

Lemma upper_app (x y : string) :
  PyStr.upper (x ++ y)%string = (PyStr.upper x ++ PyStr.upper y)%string.
Proof. induction x as [|c x IH]; simpl; [reflexivity | now rewrite IH]. Qed.

Lemma prefix_app (n y : string) : String.prefix n (n ++ y)%string = true.
Proof.
  induction n as [|c n IH]; simpl.
  - now destruct y.
  - destruct (ascii_dec c c) as [_|Hne]; [exact IH | now elim Hne].
Qed.

Lemma contains_prefix (n s : string) :
  String.prefix n s = true -> PyStr.contains n s = true.
Proof. intros H. destruct s; cbn [PyStr.contains]; now rewrite H. Qed.

Lemma contains_app (n x y : string) :
  PyStr.contains n (x ++ n ++ y)%string = true.
Proof.
  induction x as [|c x IH]; cbn [append].
  - apply contains_prefix, prefix_app.
  - cbn [PyStr.contains]. rewrite IH. apply orb_true_r.
Qed.

Lemma is_space_upper_char (c : ascii) :
  PyStr.is_space (PyStr.upper_char c) = PyStr.is_space c.
Proof.
  destruct c as [[] [] [] [] [] [] [] []]; vm_compute; reflexivity.
Qed.

Lemma no_space_upper (w : string) : no_space (PyStr.upper w) = no_space w.
Proof.
  induction w as [|c w IH]; simpl; [reflexivity|].
  now rewrite is_space_upper_char, IH.
Qed.

Lemma rstrip_no_space (w b : string) :
  no_space w = true ->
  PyStr.rstrip (w ++ b)%string = (w ++ PyStr.rstrip b)%string.
Proof.
  induction w as [|c w IH]; simpl; [reflexivity|].
  intros H. apply andb_true_iff in H. destruct H as [Hc Hw].
  rewrite (IH Hw). apply negb_true_iff in Hc. rewrite Hc.
  destruct (w ++ PyStr.rstrip b)%string; reflexivity.
Qed.

Lemma rstrip_keeps (a t : string) :
  PyStr.rstrip t <> EmptyString ->
  PyStr.rstrip (a ++ t)%string = (a ++ PyStr.rstrip t)%string.
Proof.
  intros Ht. induction a as [|c a IH]; simpl; [reflexivity|].
  rewrite IH. destruct (a ++ PyStr.rstrip t)%string eqn:Hat; [|reflexivity].
  destruct a; simpl in Hat; [contradiction | discriminate].
Qed.

Lemma lstrip_keeps (a w rest : string) :
  no_space w = true -> w <> EmptyString ->
  exists a', PyStr.lstrip (a ++ w ++ rest)%string = (a' ++ w ++ rest)%string.
Proof.
  intros Hw Hne. induction a as [|c a IH].
  - exists EmptyString. destruct w as [|d w]; [contradiction|].
    simpl in Hw. apply andb_true_iff in Hw. destruct Hw as [Hd _].
    apply negb_true_iff in Hd. simpl. now rewrite Hd.
  - cbn [append PyStr.lstrip]. destruct (PyStr.is_space c).
    + exact IH.
    + now exists (String c a).
Qed.

(** Stripping keeps a word without blanks where it is. *)
Lemma strip_keeps (a w rest : string) :
  no_space w = true -> w <> EmptyString ->
  exists a' rest',
    PyStr.strip (a ++ w ++ rest)%string = (a' ++ w ++ rest')%string.
Proof.
  intros Hw Hne. unfold PyStr.strip.
  destruct (lstrip_keeps a w rest Hw Hne) as [a' ->].
  exists a', (PyStr.rstrip rest).
  rewrite rstrip_keeps; rewrite (rstrip_no_space w rest Hw); [reflexivity|].
  destruct w; [contradiction | discriminate].
Qed.

(** X16: a reply that mentions the word ERROR anywhere, in any mix of
    upper and lower case, is a failed sample, whatever else it holds:
    also when it starts with a number. *)
Theorem sample_rejects_error_replies
  (send_failed : bool) (a w rest : string) :
  PyStr.upper w = "ERROR" ->
  fst (read {| send_raises := send_failed;
               recv := Recv (a ++ w ++ rest)%string |}) = None.
Proof.
  intros Hw. rewrite read_value. cbn [recv]. cbv zeta.
  assert (Hns : no_space w = true).
  { rewrite <- no_space_upper, Hw. reflexivity. }
  assert (Hne : w <> EmptyString).
  { intros ->. discriminate. }
  destruct (strip_keeps a w rest Hns Hne) as (a' & rest' & ->).
  rewrite !upper_app, Hw, contains_app.
  now rewrite andb_false_r.
Qed.

Lemma first_field_app (a rest : string) :
  comma_free a = true ->
  PyStr.first_field (a ++ "," ++ rest)%string = a.
Proof.
  change ("," ++ rest)%string with (String ","%char rest).
  induction a as [|c a IH]; simpl; [reflexivity|].
  intros H. apply andb_true_iff in H. destruct H as [Hc Ha].
  apply negb_true_iff in Hc. rewrite Hc. now rewrite (IH Ha).
Qed.

(** X17: of a reply made of comma-separated fields only the first is read:
    when the reply, blanks around it removed, is [a], a comma and
    anything else, and mentions no error, the sample is what [float] makes
    of [a]. *)
Theorem sample_reads_first_field_only
  (send_failed : bool) (raw a rest : string) :
  PyStr.strip raw = (a ++ "," ++ rest)%string ->
  comma_free a = true ->
  PyStr.contains "ERROR" (PyStr.upper (PyStr.strip raw)) = false ->
  fst (read {| send_raises := send_failed; recv := Recv raw |})
  = py_float a.
Proof.
  intros Hraw Ha Herr. rewrite read_value. cbn [recv]. cbv zeta.
  rewrite Herr, Hraw, (first_field_app a rest Ha).
  destruct a; reflexivity.
Qed.

(** ** The command terminator *)

Lemma endswith_newline_app (s : string) :
  endswith_newline (s ++ newline)%string = true.
Proof.
  induction s as [|c s IH]; [reflexivity|].
  cbn [append]. destruct s as [|d s]; [reflexivity|]. exact IH.
Qed.

(** X18: whatever command is given, the text sent ends with a line
    terminator; a command that already ends with one is sent as it is, any
    other gets exactly one appended, and terminating twice changes
    nothing. *)
Theorem command_line_terminated (command : string) :
  endswith_newline (command_line command) = true /\
  command_line (command_line command) = command_line command /\
  (command_line command = command \/
   endswith_newline command = false /\
   command_line command = (command ++ newline)%string).
Proof.
  assert (Hkeep : forall c, endswith_newline c = true -> command_line c = c).
  { intros c Hc. unfold command_line. now rewrite Hc. }
  destruct (endswith_newline command) eqn:Hend.
  - rewrite !(Hkeep command Hend). auto.
  - assert (Hadd : command_line command = (command ++ newline)%string).
    { unfold command_line. now rewrite Hend. }
    rewrite Hadd, (Hkeep _ (endswith_newline_app command)).
    split; [apply endswith_newline_app|]. auto.
Qed.

(** * Further properties of a run *)

(** ** Start-up *)


(** ** The file only grows *)

Lemma loop_appends (tks : list Tick) (s : AggState) (o : Output) :
  exists added, csv (snd (loop tks s o)) = csv o ++ map DataLine added.
Proof.
  revert s o. induction tks as [|tk tks IH]; intros s o; simpl.
  - exists []. simpl. now rewrite app_nil_r.
  - pose proof (body_row_step tk s o) as Hstep.
    destruct (body tk s o) as [s' o']. simpl in Hstep.
    destruct (IH s' o') as [added Hadded]. rewrite Hadded.
    destruct Hstep as [[Hsame _]|(row & Hnew & _)].
    + exists added. now rewrite Hsame.
    + exists (row :: added). rewrite Hnew, <- app_assoc. reflexivity.
Qed.

Lemma handler_appends (e : Session) (s : AggState) (o : Output) :
  exists added, csv (snd (handler e s o)) = csv o ++ map DataLine added.
Proof.
  destruct (handler_row_step e s o) as [[Hsame _]|(row & Hnew & _)].
  - exists []. simpl. now rewrite app_nil_r.
  - now exists [row].
Qed.

(** X3: the log is append-only.  Whatever the file holds after any number
    of loop iterations is still there, unchanged and in place, in the file
    the run leaves at exit; later iterations and the shutdown handler only
    add data rows after it. *)
Theorem log_is_append_only
  (previous : option (list CsvLine)) (e : Session) (v : Z)
  (done rest : list Tick) :
  connect_raises e = false ->
  fst (read (initial_exchange e)) = Some v ->
  ticks e = done ++ rest ->
  exists added,
    disk (main py_float INTERVAL_SECONDS previous e)
    = Some (csv (snd (loop done (initial_state e v)
                        (writerow HeaderLine
                           {| csv := open_w previous;
                              terminal := startup_lines py_float e v |})))
            ++ map DataLine added).
Proof.
  intros Hconn Hseed Hticks.
  rewrite (main_started previous e v Hconn Hseed). cbn zeta. simpl disk.
  rewrite logging_eq. cbn zeta. rewrite Hticks, loop_app.
  set (mid := loop done _ _).
  destruct (loop_appends rest (fst mid) (snd mid)) as [added1 H1].
  destruct (handler_appends e (fst (loop rest (fst mid) (snd mid)))
              (snd (loop rest (fst mid) (snd mid)))) as [added2 H2].
  exists (added1 ++ added2).
  rewrite H2, H1, map_app, app_assoc. reflexivity.
Qed.

(** ** When a window closes *)




(** ** Rows of a run with non-negative readings *)

Lemma rate_of_nonneg (events : Z) (elapsed : Q) :
  0 <= events -> (0 <= rate_of events elapsed)%Q.
Proof.
  intros Hev. unfold rate_of, Qlt_bool.
  destruct (Qle_bool elapsed 0) eqn:Hle; simpl.
  - apply Qle_refl.
  - assert (Hpos : (0 < elapsed)%Q).
    { apply Qnot_le_lt. intros H. apply Qle_bool_iff in H. congruence. }
    unfold Qdiv. apply Qmult_le_0_compat.
    + unfold Qle. simpl. lia.
    + apply Qinv_le_0_compat. now apply Qlt_le_weak.
Qed.

Lemma rows_sound_snoc (s s' : AggState) (o o' : Output) (row : Row) :
  rows_sound s o ->
  csv o' = csv o ++ [DataLine row] ->
  0 <= row_events row ->
  (0 <= row_rate row)%Q ->
  cumulative_events s <= row_cumulative row ->
  row_cumulative row <= cumulative_events s' ->
  rows_sound s' o'.
Proof.
  intros (Hrows & Hsorted & Hlast) Hcsv Hev Hrate Hlow Hhigh.
  unfold rows_sound. rewrite Hcsv, data_rows_app. simpl.
  rewrite map_app, last_cumulative_snoc. simpl. repeat split.
  - apply Forall_app. split; [exact Hrows|]. now repeat constructor.
  - apply nondecreasing_snoc. split; [exact Hsorted|].
    unfold last_cumulative in Hlast. lia.
  - exact Hhigh.
Qed.

Lemma rows_sound_same (s s' : AggState) (o o' : Output) :
  rows_sound s o ->
  csv o' = csv o ->
  cumulative_events s <= cumulative_events s' ->
  rows_sound s' o'.
Proof.
  intros (Hrows & Hsorted & Hlast) Hcsv Hcum.
  unfold rows_sound. rewrite Hcsv. repeat split; auto. lia.
Qed.

Lemma body_rows_sound (tk : Tick) (s : AggState) (o : Output) :
  (forall v, reading tk = Some v -> 0 <= v) ->
  rows_sound s o ->
  rows_sound (fst (body tk s o)) (snd (body tk s o)).
Proof.
  intros Hpos Hsound. destruct (reading tk) as [v|] eqn:Hv.
  - specialize (Hpos v eq_refl).
    rewrite (body_sampled tk s o v Hv). rewrite account_sample_eq. cbn zeta.
    set (delta := if v - last_counter s <? 0 then v else v - last_counter s).
    assert (Hdelta : 0 <= delta).
    { unfold delta. destruct (Z.ltb_spec (v - last_counter s) 0); lia. }
    destruct (Qle_bool _ _).
    + unfold close_interval. cbn [fst snd].
      set (events := if v - interval_start_counter _ <? 0 then v else _).
      assert (Hevents : 0 <= events).
      { unfold events. cbn [interval_start_counter].
        destruct (Z.ltb_spec (v - interval_start_counter s) 0); lia. }
      eapply rows_sound_snoc with (s := s) (o := o).
      * exact Hsound.
      * cbn [csv print writerow].
        destruct (v - last_counter s <? 0); reflexivity.
      * exact Hevents.
      * cbn [row_rate]. now apply rate_of_nonneg.
      * cbn [row_cumulative cumulative_events]. lia.
      * cbn [row_cumulative cumulative_events]. lia.
    + cbn [fst snd]. eapply rows_sound_same; [exact Hsound| |].
      * destruct (v - last_counter s <? 0); reflexivity.
      * cbn [cumulative_events]. lia.
  - rewrite (body_failed tk s o Hv). cbn [fst snd].
    eapply rows_sound_same; [exact Hsound|reflexivity|lia].
Qed.

Lemma loop_rows_sound (tks : list Tick) (s : AggState) (o : Output) :
  Forall (fun v => 0 <= v) (readings tks) ->
  rows_sound s o ->
  rows_sound (fst (loop tks s o)) (snd (loop tks s o)).
Proof.
  revert s o. induction tks as [|tk tks IH]; intros s o Hpos Hsound; simpl.
  - exact Hsound.
  - pose proof (body_rows_sound tk s o) as Hstep.
    simpl in Hpos. destruct (body tk s o) as [s' o']. simpl in Hstep.
    destruct (reading tk) as [v|] eqn:Hv.
    + inversion Hpos as [|? ? Hv0 Hrest]; subst. apply IH; [exact Hrest|].
      apply Hstep; [|exact Hsound]. intros w Hw. now injection Hw as <-.
    + apply IH; [exact Hpos|]. apply Hstep; [discriminate | exact Hsound].
Qed.

Lemma handler_rows_sound (e : Session) (s : AggState) (o : Output) :
  rows_sound s o ->
  rows_sound (fst (handler e s o)) (snd (handler e s o)).
Proof.
  intros Hsound. unfold on_interrupt.
  destruct (read (final_exchange e)) as [[vf|] said]; simpl.
  - destruct (Z.ltb_spec 0 (vf - interval_start_counter s)) as [Hpos|Hle];
      simpl.
    + destruct (0 <? interval_count s + 1); simpl;
        (eapply rows_sound_snoc with (s := s) (o := o);
         [exact Hsound | reflexivity | simpl; lia
         | simpl; apply rate_of_nonneg; lia | simpl; lia | simpl; lia]).
    + destruct (0 <? interval_count s); simpl;
        (eapply rows_sound_same; [exact Hsound | reflexivity | lia]).
  - destruct (0 <? interval_count s); simpl;
      (eapply rows_sound_same; [exact Hsound | reflexivity | lia]).
Qed.

Lemma logging_rows_sound
  (previous : option (list CsvLine)) (e : Session) (v : Z)
  (before : list Msg) :
  Forall (fun v => 0 <= v) (readings (ticks e)) ->
  rows_sound (fst (logging py_float INTERVAL_SECONDS previous e v before))
             (snd (logging py_float INTERVAL_SECONDS previous e v before)).
Proof.
  intros Hpos. rewrite logging_eq. cbn zeta.
  apply handler_rows_sound. apply loop_rows_sound; [exact Hpos|].
  unfold rows_sound, last_cumulative. simpl. repeat split; [constructor|lia].
Qed.

Lemma main_disk
  (previous : option (list CsvLine)) (e : Session) (v : Z)
  (lines : list CsvLine) :
  connect_raises e = false ->
  fst (read (initial_exchange e)) = Some v ->
  disk (main py_float INTERVAL_SECONDS previous e) = Some lines ->
  lines = csv (snd (logging py_float INTERVAL_SECONDS previous e v
                      (startup_lines py_float e v))).
Proof.
  intros Hconn Hseed Hdisk.
  rewrite (main_started previous e v Hconn Hseed) in Hdisk.
  simpl in Hdisk. now injection Hdisk as <-.
Qed.

(** X6: when every sampled reading is non-negative, no row of the file has
    a negative Events value (the seed and the shutdown reading may be
    anything). *)
Theorem row_events_nonnegative
  (previous : option (list CsvLine)) (e : Session) (v : Z)
  (lines : list CsvLine) :
  connect_raises e = false ->
  fst (read (initial_exchange e)) = Some v ->
  Forall (fun v => 0 <= v) (readings (ticks e)) ->
  disk (main py_float INTERVAL_SECONDS previous e) = Some lines ->
  Forall (fun r => 0 <= row_events r) (data_rows lines).
Proof.
  intros Hconn Hseed Hpos Hdisk.
  rewrite (main_disk previous e v lines Hconn Hseed Hdisk).
  destruct (logging_rows_sound previous e v (startup_lines py_float e v) Hpos)
    as (Hrows & _ & _).
  eapply Forall_impl; [|exact Hrows]. intros r [H _]. exact H.
Qed.

(** X7: under the same condition no row has a negative rate, whatever the
    clock readings were (a window of zero or negative length gets rate
    0). *)
Theorem row_rate_nonnegative
  (previous : option (list CsvLine)) (e : Session) (v : Z)
  (lines : list CsvLine) :
  connect_raises e = false ->
  fst (read (initial_exchange e)) = Some v ->
  Forall (fun v => 0 <= v) (readings (ticks e)) ->
  disk (main py_float INTERVAL_SECONDS previous e) = Some lines ->
  Forall (fun r => (0 <= row_rate r)%Q) (data_rows lines).
Proof.
  intros Hconn Hseed Hpos Hdisk.
  rewrite (main_disk previous e v lines Hconn Hseed Hdisk).
  destruct (logging_rows_sound previous e v (startup_lines py_float e v) Hpos)
    as (Hrows & _ & _).
  eapply Forall_impl; [|exact Hrows]. intros r [_ H]. exact H.
Qed.

(** X8: under the same condition the Cumulative Events column of the file
    starts at 0 or above and never goes down from one row to the next. *)
Theorem cumulative_column_nondecreasing
  (previous : option (list CsvLine)) (e : Session) (v : Z)
  (lines : list CsvLine) :
  connect_raises e = false ->
  fst (read (initial_exchange e)) = Some v ->
  Forall (fun v => 0 <= v) (readings (ticks e)) ->
  disk (main py_float INTERVAL_SECONDS previous e) = Some lines ->
  nondecreasing_from 0 (map row_cumulative (data_rows lines)) = true.
Proof.
  intros Hconn Hseed Hpos Hdisk.
  rewrite (main_disk previous e v lines Hconn Hseed Hdisk).
  now destruct (logging_rows_sound previous e v
                  (startup_lines py_float e v) Hpos) as (_ & H & _).
Qed.

(** ** What is reported at exit *)

Lemma query_quiet (x : Exchange) :
  Forall (fun m => is_average m = false) (snd (query x)).
Proof.
  unfold query, send_command.
  destruct (recv x), (send_raises x); simpl; repeat constructor.
Qed.

Lemma read_said (x : Exchange) : snd (read x) = snd (query x).
Proof.
  unfold read_counter_value. destruct (query x) as [[r|] out]; simpl.
  - destruct (negb _ && negb _); reflexivity.
  - reflexivity.
Qed.

Lemma read_quiet (x : Exchange) :
  Forall (fun m => is_average m = false) (snd (read x)).
Proof. rewrite read_said. apply query_quiet. Qed.

Lemma body_quiet (tk : Tick) (s : AggState) (o : Output) :
  Forall (fun m => is_average m = false) (terminal o) ->
  Forall (fun m => is_average m = false) (terminal (snd (body tk s o))).
Proof.
  intros Hq. pose proof (read_quiet (tick_exchange tk)) as Hr.
  destruct (reading tk) as [v|] eqn:Hv.
  - rewrite (body_sampled tk s o v Hv). rewrite account_sample_eq. cbn zeta.
    destruct (Qle_bool _ _); destruct (v - last_counter s <? 0); simpl;
      repeat (apply Forall_app; split); auto; repeat constructor.
  - rewrite (body_failed tk s o Hv). simpl.
    repeat (apply Forall_app; split); auto; repeat constructor.
Qed.

Lemma loop_quiet (tks : list Tick) (s : AggState) (o : Output) :
  Forall (fun m => is_average m = false) (terminal o) ->
  Forall (fun m => is_average m = false) (terminal (snd (loop tks s o))).
Proof.
  revert s o. induction tks as [|tk tks IH]; intros s o Hq; simpl.
  - exact Hq.
  - pose proof (body_quiet tk s o Hq) as Hstep.
    destruct (body tk s o) as [s' o']. now apply IH.
Qed.

Lemma startup_quiet (e : Session) (v : Z) :
  Forall (fun m => is_average m = false) (startup_lines py_float e v).
Proof.
  unfold startup_lines.
  repeat (apply Forall_app; split);
    try apply query_quiet; try apply read_quiet; repeat constructor.
  destruct (fst (query (idn_exchange e))) as [r|]; [|constructor].
  destruct (PyStr.is_empty r); repeat constructor.
Qed.

(** What the handler prints. *)
Lemma handler_terminal (e : Session) (s : AggState) (o : Output) :
  let s' := fst (handler e s o) in
  exists middle,
    Forall (fun m => is_average m = false) middle /\
    terminal (snd (handler e s o)) =
    terminal o ++ middle
    ++ [MsgDataSaved; MsgTotalIntervals (interval_count s');
        MsgTotalEvents (cumulative_events s')]
    ++ (if 0 <? interval_count s'
        then [MsgAverage (cumulative_events s') (interval_count s')]
        else []).
Proof.
  cbn zeta. unfold on_interrupt.
  pose proof (read_quiet (final_exchange e)) as Hr.
  destruct (read (final_exchange e)) as [[vf|] said]; simpl in *.
  - destruct (0 <? vf - interval_start_counter s); simpl.
    + exists ([MsgStopped] ++ said
              ++ [MsgSavedFinal (vf - interval_start_counter s)]).
      split.
      * repeat (apply Forall_app; split); auto; repeat constructor.
      * destruct (0 <? interval_count s + 1); simpl;
          rewrite <- ?app_assoc; reflexivity.
    + exists ([MsgStopped] ++ said). split.
      * repeat (apply Forall_app; split); auto; repeat constructor.
      * destruct (0 <? interval_count s); simpl;
          rewrite <- ?app_assoc; reflexivity.
  - exists ([MsgStopped] ++ said). split.
    + repeat (apply Forall_app; split); auto; repeat constructor.
    + destruct (0 <? interval_count s); simpl;
        rewrite <- ?app_assoc; reflexivity.
Qed.

(** The screen of a started run, with the final count tied to the file. *)
Lemma started_screen
  (previous : option (list CsvLine)) (e : Session) (v : Z)
  (lines : list CsvLine) :
  connect_raises e = false ->
  fst (read (initial_exchange e)) = Some v ->
  disk (main py_float INTERVAL_SECONDS previous e) = Some lines ->
  let n := Z.of_nat (length (data_rows lines)) in
  let total :=
    cumulative_events
      (fst (logging py_float INTERVAL_SECONDS previous e v
              (startup_lines py_float e v))) in
  exists quiet,
    Forall (fun m => is_average m = false) quiet /\
    screen (main py_float INTERVAL_SECONDS previous e) =
    quiet
    ++ [MsgDataSaved; MsgTotalIntervals n; MsgTotalEvents total]
    ++ (if 0 <? n then [MsgAverage total n] else [])
    ++ [MsgConnectionClosed].
Proof.
  intros Hconn Hseed Hdisk. cbn zeta.
  rewrite (main_disk previous e v lines Hconn Hseed Hdisk).
  rewrite (main_started previous e v Hconn Hseed). cbn zeta. simpl screen.
  destruct (logging_well_indexed previous e v (startup_lines py_float e v))
    as (rows & Hcsv & _ & Hcount).
  rewrite Hcsv. simpl data_rows. rewrite data_rows_map, <- Hcount.
  rewrite logging_eq. cbn zeta.
  set (lp := loop (ticks e) _ _).
  destruct (handler_terminal e (fst lp) (snd lp)) as (middle & Hmid & ->).
  exists (terminal (snd lp) ++ middle). split.
  - apply Forall_app. split; [|exact Hmid].
    apply loop_quiet. simpl. apply startup_quiet.
  - rewrite <- !app_assoc. reflexivity.
Qed.

(** X9: the number of intervals a started run reports at exit is the
    number of data rows in the file it leaves. *)
Theorem reported_intervals_match_file
  (previous : option (list CsvLine)) (e : Session) (v : Z)
  (lines : list CsvLine) :
  connect_raises e = false ->
  fst (read (initial_exchange e)) = Some v ->
  disk (main py_float INTERVAL_SECONDS previous e) = Some lines ->
  In (MsgTotalIntervals (Z.of_nat (length (data_rows lines))))
     (screen (main py_float INTERVAL_SECONDS previous e)).
Proof.
  intros Hconn Hseed Hdisk.
  destruct (started_screen previous e v lines Hconn Hseed Hdisk)
    as (quiet & _ & ->).
  rewrite in_app_iff. right. simpl. tauto.
Qed.

(** X10: an average per interval is printed exactly when the file has at
    least one data row, and it is then taken over the number of data
    rows: no average over zero intervals is ever reported. *)
Theorem average_reported_only_with_rows
  (previous : option (list CsvLine)) (e : Session) (v : Z)
  (lines : list CsvLine) :
  connect_raises e = false ->
  fst (read (initial_exchange e)) = Some v ->
  disk (main py_float INTERVAL_SECONDS previous e) = Some lines ->
  let w := main py_float INTERVAL_SECONDS previous e in
  ((exists total n, In (MsgAverage total n) (screen w)) <->
   data_rows lines <> []) /\
  (forall total n,
     In (MsgAverage total n) (screen w) ->
     n = Z.of_nat (length (data_rows lines)) /\ 0 < n).
Proof.
  intros Hconn Hseed Hdisk. cbn zeta.
  destruct (started_screen previous e v lines Hconn Hseed Hdisk)
    as (quiet & Hquiet & ->).
  set (total := cumulative_events _).
  assert (Hin : forall t n,
             In (MsgAverage t n)
                (quiet
                 ++ [MsgDataSaved;
                     MsgTotalIntervals (Z.of_nat (length (data_rows lines)));
                     MsgTotalEvents total]
                 ++ (if 0 <? Z.of_nat (length (data_rows lines))
                     then [MsgAverage total
                             (Z.of_nat (length (data_rows lines)))]
                     else [])
                 ++ [MsgConnectionClosed]) ->
             n = Z.of_nat (length (data_rows lines)) /\ 0 < n).
  { intros t n H. apply in_app_or in H. destruct H as [H|H].
    - rewrite Forall_forall in Hquiet. specialize (Hquiet _ H). discriminate.
    - simpl in H. destruct H as [H|[H|[H|H]]]; try discriminate.
      destruct (Z.ltb_spec 0 (Z.of_nat (length (data_rows lines))));
        simpl in H.
      + destruct H as [H|[H|[]]]; [|discriminate].
        injection H as _ <-. auto.
      + destruct H as [H|[]]. discriminate. }
  split; [|exact Hin]. split.
  - intros (t & n & H). destruct (Hin t n H) as [Hn Hpos].
    intros Hnil. rewrite Hnil in Hn. simpl in Hn. lia.
  - intros Hrows. exists total, (Z.of_nat (length (data_rows lines))).
    apply in_or_app. right.
    destruct (Z.ltb_spec 0 (Z.of_nat (length (data_rows lines))))
      as [_|Hle]; [simpl; tauto|].
    destruct (data_rows lines); [contradiction | simpl in Hle; lia].
Qed.

(** ** The running total as a function of the readings *)

Lemma loop_cumulative_tally (tks : list Tick) (s : AggState) (o : Output) :
  cumulative_events (fst (loop tks s o))
  = cumulative_events s + tally (last_counter s) (readings tks).
Proof.
  revert s o. induction tks as [|tk tks IH]; intros s o; simpl; [lia|].
  destruct (reading tk) as [v|] eqn:Hv.
  - pose proof (body_sampled tk s o v Hv) as Hb.
    rewrite account_sample_eq in Hb. cbn zeta in Hb.
    destruct (body tk s o) as [s' o']. rewrite IH.
    injection Hb as -> _. simpl.
    destruct (Qle_bool _ _); simpl; lia.
  - rewrite (body_failed tk s o Hv). rewrite IH. lia.
Qed.

(** ** Rows never claim more than the running total *)

Lemma body_window_covered (tk : Tick) (s : AggState) (o : Output) :
  (forall v, reading tk = Some v -> 0 <= v) ->
  window_covered s o ->
  window_covered (fst (body tk s o)) (snd (body tk s o)).
Proof.
  intros Hpos (Hlast & Hspan & Hcase). unfold window_covered in *.
  destruct (reading tk) as [v|] eqn:Hv.
  - specialize (Hpos v eq_refl).
    rewrite (body_sampled tk s o v Hv). rewrite account_sample_eq. cbn zeta.
    destruct (Qle_bool _ _).
    + unfold close_interval. cbn [fst snd].
      replace (data_rows (csv _)) with
        (data_rows (csv o)
         ++ [{| row_index := interval_count s + 1;
                row_start := interval_start_timestamp s;
                row_end := tick_end_stamp tk;
                row_events :=
                  if v - interval_start_counter s <? 0
                  then v else v - interval_start_counter s;
                row_rate :=
                  rate_of (if v - interval_start_counter s <? 0
                           then v else v - interval_start_counter s)
                          (tick_now tk - interval_start_time s);
                row_cumulative :=
                  cumulative_events s
                  + (if v - last_counter s <? 0
                     then v else v - last_counter s) |}]).
      2:{ destruct (v - last_counter s <? 0); simpl;
            rewrite data_rows_app; reflexivity. }
      rewrite sum_events_app. simpl.
      destruct (Z.ltb_spec (v - last_counter s) 0);
        destruct (Z.ltb_spec (v - interval_start_counter s) 0); lia.
    + cbn [fst snd].
      replace (data_rows (csv _)) with (data_rows (csv o)).
      2:{ destruct (v - last_counter s <? 0); reflexivity. }
      simpl. destruct (Z.ltb_spec (v - last_counter s) 0); lia.
  - rewrite (body_failed tk s o Hv). simpl. lia.
Qed.

Lemma loop_window_covered (tks : list Tick) (s : AggState) (o : Output) :
  Forall (fun v => 0 <= v) (readings tks) ->
  window_covered s o ->
  window_covered (fst (loop tks s o)) (snd (loop tks s o)).
Proof.
  revert s o. induction tks as [|tk tks IH]; intros s o Hpos Hcov; simpl.
  - exact Hcov.
  - pose proof (body_window_covered tk s o) as Hstep.
    simpl in Hpos. destruct (body tk s o) as [s' o']. simpl in Hstep.
    destruct (reading tk) as [v|] eqn:Hv.
    + inversion Hpos as [|? ? Hv0 Hrest]; subst. apply IH; [exact Hrest|].
      apply Hstep; [|exact Hcov]. intros w Hw. now injection Hw as <-.
    + apply IH; [exact Hpos|]. apply Hstep; [discriminate | exact Hcov].
Qed.

(** X12: when the seed and the samples are integers between 0 and
    [float_exact_max], resets included, and the running total stays within
    [float_exact_max], the rows of the file never add up to more events
    than the final [cumulative_events], provided the shutdown reading, if
    there is one, does not exceed the last sampled value. *)
Theorem events_sum_within_total
  (previous : option (list CsvLine)) (e : Session) (v : Z)
  (before : list Msg) :
  0 <= v <= float_exact_max ->
  Forall (fun r => 0 <= r <= float_exact_max) (readings (ticks e)) ->
  cumulative_events
    (fst (logging py_float INTERVAL_SECONDS previous e v before))
  <= float_exact_max ->
  (forall vf,
     fst (read (final_exchange e)) = Some vf ->
     vf <= last (readings (ticks e)) v) ->
  let fin := logging py_float INTERVAL_SECONDS previous e v before in
  sum_events (data_rows (csv (snd fin))) <= cumulative_events (fst fin).
Proof.
  intros [Hseed _] Hrange _ Hfinal.
  assert (Hpos : Forall (fun v => 0 <= v) (readings (ticks e))).
  { eapply Forall_impl; [|exact Hrange]. intros r [H _]. exact H. }
  cbn zeta. rewrite logging_eq. cbn zeta.
  set (o0 := writerow HeaderLine
               {| csv := open_w previous; terminal := before |}).
  assert (Hinit : window_covered (initial_state e v) o0).
  { unfold window_covered. simpl. lia. }
  pose proof (loop_window_covered (ticks e) _ _ Hpos Hinit) as Hcov.
  pose proof (loop_last_counter (ticks e) (initial_state e v) o0) as Hlast.
  simpl in Hlast.
  destruct (loop (ticks e) (initial_state e v) o0) as [s o].
  simpl in Hcov, Hlast. destruct Hcov as (Hnonneg & Hspan & Hcase).
  unfold on_interrupt.
  destruct (read (final_exchange e)) as [[vf|] said]; simpl.
  - specialize (Hfinal vf eq_refl). rewrite <- Hlast in Hfinal.
    destruct (Z.ltb_spec 0 (vf - interval_start_counter s)); simpl.
    + destruct (0 <? interval_count s + 1); simpl;
        rewrite data_rows_app, sum_events_app; simpl; lia.
    + destruct (0 <? interval_count s); simpl; lia.
  - destruct (0 <? interval_count s); simpl; lia.
Qed.

(** ** Running totals without rollover *)

Lemma running_totals_snoc (rows : list Row) (r : Row) :
  running_totals rows ->
  row_cumulative r = sum_events rows + row_events r ->
  running_totals (rows ++ [r]).
Proof.
  intros Hrun Hr k row Hnth.
  destruct (Nat.lt_ge_cases k (length rows)) as [Hlt|Hge].
  - rewrite nth_error_app1 in Hnth by exact Hlt.
    rewrite firstn_app.
    replace (S k - length rows)%nat with 0%nat by lia.
    simpl firstn at 2. rewrite app_nil_r. now apply Hrun.
  - rewrite nth_error_app2 in Hnth by exact Hge.
    destruct (k - length rows)%nat as [|j] eqn:Hk; simpl in Hnth.
    + injection Hnth as <-.
      rewrite firstn_all2 by (rewrite length_app; simpl; lia).
      rewrite sum_events_app. simpl. lia.
    + destruct j; discriminate.
Qed.

Lemma body_running_totals
  (seed : Z) (tk : Tick) (s : AggState) (o : Output) :
  tallied seed s o ->
  running_totals (data_rows (csv o)) ->
  (forall v, reading tk = Some v -> last_counter s <= v) ->
  running_totals (data_rows (csv (snd (body tk s o)))).
Proof.
  intros (Hord & Hcum & Hsum & _) Hrun Hup.
  destruct (reading tk) as [v|] eqn:Hv.
  - specialize (Hup v eq_refl).
    rewrite (body_sampled tk s o v Hv). rewrite account_sample_eq. cbn zeta.
    assert (Hno : (v - last_counter s <? 0) = false) by (apply Z.ltb_ge; lia).
    rewrite Hno.
    destruct (Qle_bool _ _); unfold close_interval; simpl.
    + assert (Hno' : (v - interval_start_counter s <? 0) = false)
        by (apply Z.ltb_ge; lia).
      rewrite Hno', data_rows_app. simpl.
      apply running_totals_snoc; [exact Hrun|]. simpl. lia.
    + exact Hrun.
  - rewrite (body_failed tk s o Hv). exact Hrun.
Qed.

Lemma loop_running_totals
  (seed : Z) (tks : list Tick) (s : AggState) (o : Output) :
  tallied seed s o ->
  running_totals (data_rows (csv o)) ->
  nondecreasing_from (last_counter s) (readings tks) = true ->
  running_totals (data_rows (csv (snd (loop tks s o)))).
Proof.
  revert s o. induction tks as [|tk tks IH]; intros s o Ht Hrun Hup; simpl.
  - exact Hrun.
  - pose proof (body_tallied seed tk s o Ht) as Hstep.
    pose proof (body_running_totals seed tk s o Ht Hrun) as Hstep'.
    pose proof (body_last_counter tk s o) as Hlast.
    simpl in Hup.
    destruct (body tk s o) as [s' o']. simpl in Hstep, Hstep', Hlast.
    destruct (reading tk) as [v|].
    + simpl in Hup. apply andb_true_iff in Hup. destruct Hup as [Hle Hrest].
      apply Z.leb_le in Hle.
      assert (Hok : forall w, Some v = Some w -> last_counter s <= w).
      { intros w Hw. injection Hw as <-. exact Hle. }
      apply IH; [now apply Hstep | now apply Hstep' | now rewrite Hlast].
    + apply IH; [apply Hstep; discriminate | apply Hstep'; discriminate
                | now rewrite Hlast].
Qed.

(** X13: in a run whose readings are integers between 0 and
    [float_exact_max], never go down, and whose shutdown reading, if there
    is one, equals the last sampled value, the Cumulative Events value of
    every row is the sum of the Events values of the rows up to and
    including it. *)
Theorem cumulative_column_is_running_sum
  (previous : option (list CsvLine)) (e : Session) (v : Z)
  (before : list Msg) (k : nat) (row : Row) :
  0 <= v ->
  last (readings (ticks e)) v <= float_exact_max ->
  nondecreasing_from v (readings (ticks e)) = true ->
  (forall vf,
     fst (read (final_exchange e)) = Some vf ->
     vf = last (readings (ticks e)) v) ->
  let rows :=
    data_rows
      (csv (snd (logging py_float INTERVAL_SECONDS previous e v before))) in
  nth_error rows k = Some row ->
  sum_events (firstn (S k) rows) = row_cumulative row.
Proof.
  intros _ _ Hup Hfinal. cbn zeta. rewrite logging_eq. cbn zeta.
  set (o0 := writerow HeaderLine
               {| csv := open_w previous; terminal := before |}).
  pose proof (initial_tallied previous e v before) as Hinit.
  fold o0 in Hinit.
  assert (Hrun0 : running_totals (data_rows (csv o0))).
  { intros j r Hj. destruct j; discriminate. }
  pose proof (loop_tallied v (ticks e) _ o0 Hinit Hup) as Ht.
  pose proof (loop_running_totals v (ticks e) _ o0 Hinit Hrun0 Hup) as Hrun.
  pose proof (loop_last_counter (ticks e) (initial_state e v) o0) as Hlast.
  simpl in Hlast.
  destruct (loop (ticks e) (initial_state e v) o0) as [s o].
  simpl in Ht, Hrun, Hlast. destruct Ht as (Hord & Hcum & Hsum & _).
  revert k row.
  change (running_totals (data_rows (csv (snd (handler e s o))))).
  unfold on_interrupt.
  destruct (read (final_exchange e)) as [[vf|] said]; simpl.
  - specialize (Hfinal vf eq_refl). rewrite <- Hlast in Hfinal. subst vf.
    destruct (Z.ltb_spec 0 (last_counter s - interval_start_counter s));
      simpl.
    + destruct (0 <? interval_count s + 1); simpl;
        rewrite data_rows_app; simpl;
        (apply running_totals_snoc; [exact Hrun | simpl; lia]).
    + destruct (0 <? interval_count s); exact Hrun.
  - destruct (0 <? interval_count s); exact Hrun.
Qed.

(** ** How many rows a run can write *)

Lemma body_row_count (tk : Tick) (s : AggState) (o : Output) :
  (length (data_rows (csv (snd (body tk s o))))
   <= length (data_rows (csv o))
      + match reading tk with Some _ => 1 | None => 0 end)%nat.
Proof.
  destruct (reading tk) as [v|] eqn:Hv.
  - destruct (body_row_step tk s o) as [[Hsame _]|(row & Hnew & _)].
    + rewrite Hsame. lia.
    + rewrite Hnew, data_rows_app, length_app. simpl. lia.
  - rewrite (body_failed tk s o Hv). simpl. lia.
Qed.

Lemma loop_row_count (tks : list Tick) (s : AggState) (o : Output) :
  (length (data_rows (csv (snd (loop tks s o))))
   <= length (data_rows (csv o)) + length (readings tks))%nat.
Proof.
  revert s o. induction tks as [|tk tks IH]; intros s o; simpl; [lia|].
  pose proof (body_row_count tk s o) as Hstep.
  destruct (body tk s o) as [s' o']. simpl in Hstep.
  specialize (IH s' o').
  destruct (reading tk); simpl; lia.
Qed.

(** X14: failed reads never produce rows.  The file of a started run has
    at most one data row per successful sample, plus one more when the
    shutdown reading succeeds; with every read failing it holds the header
    alone. *)
Theorem rows_bounded_by_successful_reads
  (previous : option (list CsvLine)) (e : Session) (v : Z)
  (lines : list CsvLine) :
  connect_raises e = false ->
  fst (read (initial_exchange e)) = Some v ->
  disk (main py_float INTERVAL_SECONDS previous e) = Some lines ->
  (length (data_rows lines)
   <= length (readings (ticks e))
      + match fst (read (final_exchange e)) with
        | Some _ => 1
        | None => 0
        end)%nat.
Proof.
  intros Hconn Hseed Hdisk.
  rewrite (main_disk previous e v lines Hconn Hseed Hdisk).
  rewrite logging_eq. cbn zeta.
  set (o0 := writerow HeaderLine _).
  pose proof (loop_row_count (ticks e) (initial_state e v) o0) as Hloop.
  simpl in Hloop.
  destruct (loop (ticks e) (initial_state e v) o0) as [s o].
  simpl in Hloop. unfold on_interrupt.
  destruct (read (final_exchange e)) as [[vf|] said]; simpl.
  - destruct (0 <? vf - interval_start_counter s); simpl.
    + destruct (0 <? interval_count s + 1); simpl;
        rewrite data_rows_app, length_app; simpl; lia.
    + destruct (0 <? interval_count s); simpl; lia.
  - destruct (0 <? interval_count s); simpl; lia.
Qed.

(** X20: in a started run whose readings are integers between 0 and
    [float_exact_max] and never go down, the total number of events
    reported at exit is the last sampled reading minus the seed; what the
    counter shows at shutdown does not enter it. *)
Theorem reported_total_is_sampled_span
  (previous : option (list CsvLine)) (e : Session) (v : Z)
  (lines : list CsvLine) :
  0 <= v ->
  last (readings (ticks e)) v <= float_exact_max ->
  connect_raises e = false ->
  fst (read (initial_exchange e)) = Some v ->
  nondecreasing_from v (readings (ticks e)) = true ->
  disk (main py_float INTERVAL_SECONDS previous e) = Some lines ->
  In (MsgTotalEvents (last (readings (ticks e)) v - v))
     (screen (main py_float INTERVAL_SECONDS previous e)).
Proof.
  intros _ _ Hconn Hseed Hup Hdisk.
  destruct (started_screen previous e v lines Hconn Hseed Hdisk)
    as (quiet & _ & ->).
  rewrite logging_eq. cbn zeta.
  set (o0 := writerow HeaderLine _).
  pose proof (loop_tallied v (ticks e) (initial_state e v) o0
                (initial_tallied previous e v _) Hup) as (_ & Hcum & _).
  pose proof (loop_last_counter (ticks e) (initial_state e v) o0) as Hlast.
  simpl in Hlast.
  destruct (handler_state e (fst (loop (ticks e) (initial_state e v) o0))
              (snd (loop (ticks e) (initial_state e v) o0)))
    as (_ & _ & Hsame).
  rewrite Hsame, Hcum, Hlast.
  rewrite in_app_iff. right. simpl. tauto.
Qed.

End Properties.

(** * The properties on concrete runs *)

Lemma failed_read_changes_nothing_witness :
  let tk := Sample.tick_at 1 Sample.timed_out in
  let s := Sample.seeded 0 in
  reading Sample.float_of_digits tk = None /\
  (fst (loop_body Sample.float_of_digits 60 tk s Sample.fresh) = s /\
   csv (snd (loop_body Sample.float_of_digits 60 tk s Sample.fresh))
   = csv Sample.fresh /\
   sampling_loop Sample.float_of_digits 60 [tk] s Sample.fresh
   = sampling_loop Sample.float_of_digits 60 [] s
       (snd (loop_body Sample.float_of_digits 60 tk s Sample.fresh))).
Proof.
  split; [reflexivity|].
  apply (failed_read_changes_nothing Sample.float_of_digits 60). reflexivity.
Defined.

Lemma rollover_substitution_witness :
  let tk := Sample.tick_at 60 (Sample.reply "30") in
  let s := Sample.seeded 100 in
  let after := loop_body Sample.float_of_digits 60 tk s Sample.fresh in
  reading Sample.float_of_digits tk = Some 30 /\
  30 - last_counter s < 0 /\
  Qle_bool (inject_Z 60) (tick_now tk - interval_start_time s) = true /\
  30 - interval_start_counter s < 0 /\
  (cumulative_events (fst after) = cumulative_events s + 30 /\
   In (MsgCounterReset (last_counter s) 30) (terminal (snd after))) /\
  (exists row,
     csv (snd after) = csv Sample.fresh ++ [DataLine row] /\
     row_events row = 30).
Proof.
  cbn zeta.
  destruct (rollover_substitution Sample.float_of_digits 60)
    as (Hsample & _ & Hwindow).
  split; [reflexivity|]. split; [reflexivity|].
  split; [reflexivity|]. split; [reflexivity|]. split.
  - apply Hsample; reflexivity.
  - apply Hwindow; reflexivity.
Defined.

Lemma cumulative_events_nondecreasing_witness :
  let a := [Sample.tick_at 1 (Sample.reply "30")] in
  let b := [Sample.tick_at 2 (Sample.reply "10")] in
  let s := Sample.seeded 100 in
  let mid := sampling_loop Sample.float_of_digits 60 a s Sample.fresh in
  let fin := sampling_loop Sample.float_of_digits 60 (a ++ b) s Sample.fresh in
  Forall (fun v => 0 <= v) (readings Sample.float_of_digits (a ++ b)) /\
  (cumulative_events s <= cumulative_events (fst mid) /\
   cumulative_events (fst mid) <= cumulative_events (fst fin) /\
   cumulative_events
     (fst (on_interrupt Sample.float_of_digits Sample.steady
             (fst fin) (snd fin)))
   = cumulative_events (fst fin)).
Proof.
  cbn zeta.
  assert (H : Forall (fun v => 0 <= v)
                (readings Sample.float_of_digits
                   ([Sample.tick_at 1 (Sample.reply "30")]
                    ++ [Sample.tick_at 2 (Sample.reply "10")]))).
  { repeat constructor; discriminate. }
  split; [exact H|].
  exact (cumulative_events_nondecreasing Sample.float_of_digits 60
           _ _ Sample.steady (Sample.seeded 100) Sample.fresh H).
Defined.

Lemma rows_numbered_in_write_order_witness :
  let e := Sample.steady_then_more in
  let row := {| row_index := 2; row_start := "start"; row_end := "stop";
                row_events := 6; row_rate := (6 # 5)%Q;
                row_cumulative := 20 |} in
  connect_raises e = false /\
  fst (read_counter_value Sample.float_of_digits (initial_exchange e))
  = Some 0 /\
  disk (main Sample.float_of_digits 60 None e)
  = Some Sample.steady_then_more_file /\
  nth_error (data_rows Sample.steady_then_more_file) 1 = Some row /\
  row_index row = Z.of_nat 1 + 1.
Proof.
  cbn zeta.
  split; [reflexivity|]. split; [reflexivity|].
  split; [reflexivity|]. split; [reflexivity|].
  apply (rows_numbered_in_write_order Sample.float_of_digits 60 None
           Sample.steady_then_more 0 Sample.steady_then_more_file);
    reflexivity.
Defined.

Lemma output_file_truncated_header_first_witness :
  let e := Sample.steady_then_more in
  connect_raises e = false /\
  fst (read_counter_value Sample.float_of_digits (initial_exchange e))
  = Some 0 /\
  exists rows,
    disk (main Sample.float_of_digits 60 (Some Sample.stale_file) e)
    = Some (HeaderLine :: map DataLine rows) /\
    disk (main Sample.float_of_digits 60 None e)
    = Some (HeaderLine :: map DataLine rows).
Proof.
  cbn zeta. split; [reflexivity|]. split; [reflexivity|].
  apply (output_file_truncated_header_first Sample.float_of_digits 60
           (Some Sample.stale_file) Sample.steady_then_more 0); reflexivity.
Defined.


Lemma failed_final_read_skips_trailing_row_witness :
  let e := Sample.steady_then_timeout in
  let lp := sampling_loop Sample.float_of_digits 60 (ticks e)
              (initial_state e 0)
              (writerow HeaderLine
                 {| csv := open_w None;
                    terminal := startup_lines Sample.float_of_digits e 0 |}) in
  let s := fst lp in
  let w := main Sample.float_of_digits 60 None e in
  connect_raises e = false /\
  fst (read_counter_value Sample.float_of_digits (initial_exchange e))
  = Some 0 /\
  fst (read_counter_value Sample.float_of_digits (final_exchange e)) = None /\
  (disk w = Some (csv (snd lp)) /\
   interval_count (fst (on_interrupt Sample.float_of_digits e s (snd lp)))
   = interval_count s /\
   csvfile_closed w = true /\
   socket_closed w = true /\
   screen w =
     terminal (snd lp)
     ++ [MsgStopped]
     ++ snd (read_counter_value Sample.float_of_digits (final_exchange e))
     ++ [MsgDataSaved; MsgTotalIntervals (interval_count s);
         MsgTotalEvents (cumulative_events s)]
     ++ (if 0 <? interval_count s
         then [MsgAverage (cumulative_events s) (interval_count s)]
         else [])
     ++ [MsgConnectionClosed]).
Proof.
  cbn zeta. split; [reflexivity|]. split; [reflexivity|].
  split; [reflexivity|].
  apply (failed_final_read_skips_trailing_row Sample.float_of_digits 60 None
           Sample.steady_then_timeout 0); reflexivity.
Defined.

Lemma failed_sample_returns_none_witness :
  fst (read_counter_value Sample.float_of_digits Sample.junk) = None /\
  exists raw,
    recv Sample.junk = Recv raw /\
    (PyStr.strip raw = "" \/
     PyStr.contains "ERROR" (PyStr.upper (PyStr.strip raw)) = true \/
     Sample.float_of_digits (PyStr.first_field (PyStr.strip raw)) = None).
Proof.
  split; [reflexivity|].
  destruct (proj1 (proj1 (failed_sample_returns_none
                            Sample.float_of_digits Sample.junk)) eq_refl)
    as [H|[H|H]]; [discriminate H | discriminate H | exact H].
Defined.

Lemma events_sum_is_counter_span_witness :
  let e := Sample.steady_then_more in
  0 <= 0 /\
  26 <= float_exact_max /\
  fst (read_counter_value Sample.float_of_digits (final_exchange e))
  = Some 26 /\
  increasing_from 0 (readings Sample.float_of_digits (ticks e) ++ [26])
  = true /\
  sum_events
    (data_rows (csv (snd (logging Sample.float_of_digits 60 None e 0 []))))
  = 26 - 0.
Proof.
  cbn zeta. split; [discriminate|]. split; [discriminate|].
  split; [reflexivity|]. split; [reflexivity|].
  apply (events_sum_is_counter_span Sample.float_of_digits 60 None
           Sample.steady_then_more 0 26 []);
    [discriminate | discriminate | reflexivity | reflexivity].
Defined.

Lemma events_sum_is_cumulative_total_witness :
  let e := Sample.steady in
  let fin := logging Sample.float_of_digits 60 None e 0 [] in
  0 <= 0 /\
  last (readings Sample.float_of_digits (ticks e)) 0 <= float_exact_max /\
  nondecreasing_from 0 (readings Sample.float_of_digits (ticks e)) = true /\
  fst (read_counter_value Sample.float_of_digits (final_exchange e))
  = Some (last (readings Sample.float_of_digits (ticks e)) 0) /\
  sum_events (data_rows (csv (snd fin))) = cumulative_events (fst fin) /\
  last_cumulative (data_rows (csv (snd fin))) = cumulative_events (fst fin).
Proof.
  cbn zeta. split; [discriminate|]. split; [discriminate|].
  split; [reflexivity|]. split; [reflexivity|].
  apply (events_sum_is_cumulative_total Sample.float_of_digits 60 None
           Sample.steady 0 []);
    [discriminate | discriminate | reflexivity | reflexivity].
Defined.

(** C3 fails on the code as stated.  With seed 0 and samples 5 and 12
    inside the first minute, a strictly increasing sequence, a shutdown
    read that times out leaves the file without a data row: the events
    add up to 0 while the counter has moved from 0 to 12. *)
Lemma events_sum_misses_span_without_final_reading :
  let e := Sample.unclosed_then_timeout in
  let w := Sample.run e in
  increasing_from 0 (readings Sample.float_of_digits (ticks e)) = true /\
  last (readings Sample.float_of_digits (ticks e)) 0 - 0 = 12 /\
  disk w = Some [HeaderLine] /\
  exists lines,
    disk w = Some lines /\
    sum_events (data_rows lines)
    <> last (readings Sample.float_of_digits (ticks e)) 0 - 0.
Proof.
  cbn zeta. split; [reflexivity|]. split; [reflexivity|].
  split; [reflexivity|].
  exists [HeaderLine]. split; [reflexivity|]. discriminate.
Qed.

(** C1 fails on the code as stated.  With seed 0, one sample 5 and a
    shutdown reading 8, the only row has 8 events while the total written
    next to it and reported at exit is 5; with seed 100, a reset to 30 and
    then 120 closing the window, the only row has 20 events while the total
    is 120. *)
Lemma events_sum_differs_from_total :
  (let w := Sample.run Sample.late_events in
   exists lines,
     disk w = Some lines /\
     In (MsgTotalEvents 5) (screen w) /\
     last_cumulative (data_rows lines) = 5 /\
     sum_events (data_rows lines) = 8 /\
     sum_events (data_rows lines) <> last_cumulative (data_rows lines)) /\
  (let w := Sample.run Sample.reset_then_pass in
   exists lines,
     disk w = Some lines /\
     In (MsgTotalEvents 120) (screen w) /\
     last_cumulative (data_rows lines) = 120 /\
     sum_events (data_rows lines) = 20 /\
     sum_events (data_rows lines) <> last_cumulative (data_rows lines)).
Proof.
  split; cbn zeta; eexists; (split; [vm_compute; reflexivity|]).
  - split; [vm_compute; tauto|].
    split; [reflexivity|]. split; [reflexivity|]. discriminate.
  - split; [vm_compute; tauto|].
    split; [reflexivity|]. split; [reflexivity|]. discriminate.
Qed.

(** C4 fails on the code as stated.  A timeout, an empty reply and a
    reply that is not a number give the same result, value and printed
    lines alike, so nothing computed from the result tells the three
    reasons apart. *)
Lemma failure_reasons_share_one_result :
  ~ exists classify : option Z * list Msg -> FailureReason,
      classify (read_counter_value Sample.float_of_digits Sample.timed_out)
      = Timeout /\
      classify (read_counter_value Sample.float_of_digits Sample.empty_reply)
      = EmptyResponse /\
      classify (read_counter_value Sample.float_of_digits Sample.junk)
      = ParseError.
Proof.
  intros (classify & Htimeout & Hempty & _).
  change (read_counter_value Sample.float_of_digits Sample.empty_reply)
    with (read_counter_value Sample.float_of_digits Sample.timed_out)
    in Hempty.
  rewrite Htimeout in Hempty. discriminate.
Qed.

(** * Further properties on concrete runs *)

(** X11: the running total and the last reading depend on the sequence of
    successful readings alone: not on when they were taken, on how many
    reads failed in between, on the interval length, or on where windows
    closed. *)
Theorem total_depends_on_readings_only
  (py_float : string -> option Z) (interval1 interval2 : Z)
  (tks1 tks2 : list Tick) (s1 s2 : AggState) (o1 o2 : Output) :
  last_counter s1 = last_counter s2 ->
  cumulative_events s1 = cumulative_events s2 ->
  readings py_float tks1 = readings py_float tks2 ->
  cumulative_events (fst (sampling_loop py_float interval1 tks1 s1 o1))
  = cumulative_events (fst (sampling_loop py_float interval2 tks2 s2 o2)) /\
  last_counter (fst (sampling_loop py_float interval1 tks1 s1 o1))
  = last_counter (fst (sampling_loop py_float interval2 tks2 s2 o2)).
Proof.
  intros Hlast Hcum Hreads.
  rewrite !loop_cumulative_tally, !loop_last_counter.
  now rewrite Hlast, Hcum, Hreads.
Qed.

Lemma total_depends_on_readings_only_witness :
  let tks1 := [Sample.tick_at 1 (Sample.reply "5");
               Sample.tick_at 2 Sample.timed_out;
               Sample.tick_at 70 (Sample.reply "3")] in
  let tks2 := [Sample.tick_at 100 (Sample.reply "5");
               Sample.tick_at 200 (Sample.reply "3")] in
  let s := Sample.seeded 0 in
  last_counter s = last_counter s /\
  cumulative_events s = cumulative_events s /\
  readings Sample.float_of_digits tks1 = readings Sample.float_of_digits tks2 /\
  cumulative_events
    (fst (sampling_loop Sample.float_of_digits 60 tks1 s Sample.fresh))
  = cumulative_events
      (fst (sampling_loop Sample.float_of_digits 10 tks2 s Sample.fresh)) /\
  last_counter
    (fst (sampling_loop Sample.float_of_digits 60 tks1 s Sample.fresh))
  = last_counter
      (fst (sampling_loop Sample.float_of_digits 10 tks2 s Sample.fresh)).
Proof.
  cbn zeta. split; [reflexivity|]. split; [reflexivity|].
  split; [reflexivity|].
  apply total_depends_on_readings_only; reflexivity.
Defined.

Lemma sample_ignores_surrounding_whitespace_witness :
  all_space " " = true /\
  all_space newline = true /\
  read_counter_value Sample.float_of_digits
    {| send_raises := false; recv := Recv (" " ++ "42" ++ newline)%string |}
  = read_counter_value Sample.float_of_digits
      {| send_raises := false; recv := Recv "42" |}.
Proof.
  split; [reflexivity|]. split; [reflexivity|].
  apply sample_ignores_surrounding_whitespace; reflexivity.
Defined.

Lemma sample_rejects_error_replies_witness :
  PyStr.upper "Error" = "ERROR" /\
  fst (read_counter_value Sample.float_of_digits
         {| send_raises := false;
            recv := Recv ("12," ++ "Error" ++ " 3")%string |}) = None.
Proof.
  split; [reflexivity|].
  apply sample_rejects_error_replies; reflexivity.
Defined.

Lemma sample_reads_first_field_only_witness :
  PyStr.strip " 1234,5678 " = ("1234" ++ "," ++ "5678")%string /\
  comma_free "1234" = true /\
  PyStr.contains "ERROR" (PyStr.upper (PyStr.strip " 1234,5678 ")) = false /\
  fst (read_counter_value Sample.float_of_digits
         {| send_raises := false; recv := Recv " 1234,5678 " |})
  = Sample.float_of_digits "1234".
Proof.
  split; [reflexivity|]. split; [reflexivity|]. split; [reflexivity|].
  apply (sample_reads_first_field_only Sample.float_of_digits false
           " 1234,5678 " "1234" "5678"); reflexivity.
Defined.


Lemma log_is_append_only_witness :
  let e := Sample.steady_then_more in
  let done := [Sample.tick_at 20 (Sample.reply "5");
               Sample.tick_at 40 (Sample.reply "12")] in
  let rest := [Sample.tick_at 65 (Sample.reply "20")] in
  connect_raises e = false /\
  fst (read_counter_value Sample.float_of_digits (initial_exchange e))
  = Some 0 /\
  ticks e = done ++ rest /\
  exists added,
    disk (main Sample.float_of_digits 60 None e)
    = Some (csv (snd (sampling_loop Sample.float_of_digits 60 done
                        (initial_state e 0)
                        (writerow HeaderLine
                           {| csv := open_w None;
                              terminal :=
                                startup_lines Sample.float_of_digits e 0 |})))
            ++ map DataLine added).
Proof.
  cbn zeta. split; [reflexivity|]. split; [reflexivity|].
  split; [reflexivity|].
  apply (log_is_append_only Sample.float_of_digits 60 None
           Sample.steady_then_more 0
           [Sample.tick_at 20 (Sample.reply "5");
            Sample.tick_at 40 (Sample.reply "12")]
           [Sample.tick_at 65 (Sample.reply "20")]); reflexivity.
Defined.



Lemma row_events_nonnegative_witness :
  let e := Sample.steady_then_more in
  connect_raises e = false /\
  fst (read_counter_value Sample.float_of_digits (initial_exchange e))
  = Some 0 /\
  Forall (fun v => 0 <= v) (readings Sample.float_of_digits (ticks e)) /\
  disk (main Sample.float_of_digits 60 None e)
  = Some Sample.steady_then_more_file /\
  Forall (fun r => 0 <= row_events r)
         (data_rows Sample.steady_then_more_file).
Proof.
  cbn zeta.
  assert (Hpos : Forall (fun v => 0 <= v)
                   (readings Sample.float_of_digits
                      (ticks Sample.steady_then_more)))
    by (repeat constructor; discriminate).
  split; [reflexivity|]. split; [reflexivity|]. split; [exact Hpos|].
  split; [reflexivity|].
  exact (row_events_nonnegative Sample.float_of_digits 60 None
           Sample.steady_then_more 0 Sample.steady_then_more_file
           eq_refl eq_refl Hpos eq_refl).
Defined.

Lemma row_rate_nonnegative_witness :
  let e := Sample.steady_then_more in
  connect_raises e = false /\
  fst (read_counter_value Sample.float_of_digits (initial_exchange e))
  = Some 0 /\
  Forall (fun v => 0 <= v) (readings Sample.float_of_digits (ticks e)) /\
  disk (main Sample.float_of_digits 60 None e)
  = Some Sample.steady_then_more_file /\
  Forall (fun r => (0 <= row_rate r)%Q)
         (data_rows Sample.steady_then_more_file).
Proof.
  cbn zeta.
  assert (Hpos : Forall (fun v => 0 <= v)
                   (readings Sample.float_of_digits
                      (ticks Sample.steady_then_more)))
    by (repeat constructor; discriminate).
  split; [reflexivity|]. split; [reflexivity|]. split; [exact Hpos|].
  split; [reflexivity|].
  exact (row_rate_nonnegative Sample.float_of_digits 60 None
           Sample.steady_then_more 0 Sample.steady_then_more_file
           eq_refl eq_refl Hpos eq_refl).
Defined.

Lemma cumulative_column_nondecreasing_witness :
  let e := Sample.steady_then_more in
  connect_raises e = false /\
  fst (read_counter_value Sample.float_of_digits (initial_exchange e))
  = Some 0 /\
  Forall (fun v => 0 <= v) (readings Sample.float_of_digits (ticks e)) /\
  disk (main Sample.float_of_digits 60 None e)
  = Some Sample.steady_then_more_file /\
  nondecreasing_from 0
    (map row_cumulative (data_rows Sample.steady_then_more_file)) = true.
Proof.
  cbn zeta.
  assert (Hpos : Forall (fun v => 0 <= v)
                   (readings Sample.float_of_digits
                      (ticks Sample.steady_then_more)))
    by (repeat constructor; discriminate).
  split; [reflexivity|]. split; [reflexivity|]. split; [exact Hpos|].
  split; [reflexivity|].
  exact (cumulative_column_nondecreasing Sample.float_of_digits 60 None
           Sample.steady_then_more 0 Sample.steady_then_more_file
           eq_refl eq_refl Hpos eq_refl).
Defined.

Lemma reported_intervals_match_file_witness :
  let e := Sample.steady_then_more in
  connect_raises e = false /\
  fst (read_counter_value Sample.float_of_digits (initial_exchange e))
  = Some 0 /\
  disk (main Sample.float_of_digits 60 None e)
  = Some Sample.steady_then_more_file /\
  In (MsgTotalIntervals
        (Z.of_nat (length (data_rows Sample.steady_then_more_file))))
     (screen (main Sample.float_of_digits 60 None e)).
Proof.
  cbn zeta. split; [reflexivity|]. split; [reflexivity|].
  split; [reflexivity|].
  exact (reported_intervals_match_file Sample.float_of_digits 60 None
           Sample.steady_then_more 0 Sample.steady_then_more_file
           eq_refl eq_refl eq_refl).
Defined.

Lemma average_reported_only_with_rows_witness :
  let e := Sample.steady_then_more in
  let w := main Sample.float_of_digits 60 None e in
  connect_raises e = false /\
  fst (read_counter_value Sample.float_of_digits (initial_exchange e))
  = Some 0 /\
  disk w = Some Sample.steady_then_more_file /\
  ((exists total n, In (MsgAverage total n) (screen w)) <->
   data_rows Sample.steady_then_more_file <> []) /\
  (forall total n,
     In (MsgAverage total n) (screen w) ->
     n = Z.of_nat (length (data_rows Sample.steady_then_more_file)) /\
     0 < n).
Proof.
  cbn zeta. split; [reflexivity|]. split; [reflexivity|].
  split; [reflexivity|].
  exact (average_reported_only_with_rows Sample.float_of_digits 60 None
           Sample.steady_then_more 0 Sample.steady_then_more_file
           eq_refl eq_refl eq_refl).
Defined.

Lemma events_sum_within_total_witness :
  let e := Sample.reset_then_pass in
  let fin := logging Sample.float_of_digits 60 None e 100 [] in
  0 <= 100 <= float_exact_max /\
  Forall (fun r => 0 <= r <= float_exact_max)
         (readings Sample.float_of_digits (ticks e)) /\
  cumulative_events (fst fin) <= float_exact_max /\
  (forall vf,
     fst (read_counter_value Sample.float_of_digits (final_exchange e))
     = Some vf ->
     vf <= last (readings Sample.float_of_digits (ticks e)) 100) /\
  sum_events (data_rows (csv (snd fin))) <= cumulative_events (fst fin).
Proof.
  cbn zeta.
  assert (Hseed : 0 <= 100 <= float_exact_max) by (split; discriminate).
  assert (Hrange : Forall (fun r => 0 <= r <= float_exact_max)
                     (readings Sample.float_of_digits
                        (ticks Sample.reset_then_pass)))
    by (repeat constructor; discriminate).
  assert (Htotal :
            cumulative_events
              (fst (logging Sample.float_of_digits 60 None
                      Sample.reset_then_pass 100 []))
            <= float_exact_max) by discriminate.
  assert (Hfinal : forall vf,
             fst (read_counter_value Sample.float_of_digits
                    (final_exchange Sample.reset_then_pass)) = Some vf ->
             vf <= last (readings Sample.float_of_digits
                           (ticks Sample.reset_then_pass)) 100).
  { intros vf H. vm_compute in H. injection H as <-. discriminate. }
  split; [exact Hseed|]. split; [exact Hrange|]. split; [exact Htotal|].
  split; [exact Hfinal|].
  exact (events_sum_within_total Sample.float_of_digits 60 None
           Sample.reset_then_pass 100 [] Hseed Hrange Htotal Hfinal).
Defined.

Lemma cumulative_column_is_running_sum_witness :
  let e := Sample.steady in
  let rows :=
    data_rows (csv (snd (logging Sample.float_of_digits 60 None e 0 []))) in
  0 <= 0 /\
  last (readings Sample.float_of_digits (ticks e)) 0 <= float_exact_max /\
  nondecreasing_from 0 (readings Sample.float_of_digits (ticks e)) = true /\
  (forall vf,
     fst (read_counter_value Sample.float_of_digits (final_exchange e))
     = Some vf ->
     vf = last (readings Sample.float_of_digits (ticks e)) 0) /\
  nth_error rows 0 = Some Sample.steady_row /\
  sum_events (firstn 1 rows) = row_cumulative Sample.steady_row.
Proof.
  cbn zeta.
  assert (Hfinal : forall vf,
             fst (read_counter_value Sample.float_of_digits
                    (final_exchange Sample.steady)) = Some vf ->
             vf = last (readings Sample.float_of_digits
                          (ticks Sample.steady)) 0).
  { intros vf H. vm_compute in H. injection H as <-. reflexivity. }
  split; [discriminate|]. split; [discriminate|].
  split; [reflexivity|]. split; [exact Hfinal|]. split; [reflexivity|].
  apply (cumulative_column_is_running_sum Sample.float_of_digits 60 None
           Sample.steady 0 [] 0 Sample.steady_row);
    [discriminate | discriminate | reflexivity | exact Hfinal | reflexivity].
Defined.

Lemma rows_bounded_by_successful_reads_witness :
  let e := Sample.steady_then_more in
  connect_raises e = false /\
  fst (read_counter_value Sample.float_of_digits (initial_exchange e))
  = Some 0 /\
  disk (main Sample.float_of_digits 60 None e)
  = Some Sample.steady_then_more_file /\
  (length (data_rows Sample.steady_then_more_file)
   <= length (readings Sample.float_of_digits (ticks e))
      + match fst (read_counter_value Sample.float_of_digits
                     (final_exchange e)) with
        | Some _ => 1
        | None => 0
        end)%nat.
Proof.
  cbn zeta. split; [reflexivity|]. split; [reflexivity|].
  split; [reflexivity|].
  exact (rows_bounded_by_successful_reads Sample.float_of_digits 60 None
           Sample.steady_then_more 0 Sample.steady_then_more_file
           eq_refl eq_refl eq_refl).
Defined.

Lemma reported_total_is_sampled_span_witness :
  let e := Sample.steady_then_more in
  0 <= 0 /\
  last (readings Sample.float_of_digits (ticks e)) 0 <= float_exact_max /\
  connect_raises e = false /\
  fst (read_counter_value Sample.float_of_digits (initial_exchange e))
  = Some 0 /\
  nondecreasing_from 0 (readings Sample.float_of_digits (ticks e)) = true /\
  disk (main Sample.float_of_digits 60 None e)
  = Some Sample.steady_then_more_file /\
  In (MsgTotalEvents (last (readings Sample.float_of_digits (ticks e)) 0 - 0))
     (screen (main Sample.float_of_digits 60 None e)).
Proof.
  cbn zeta. split; [discriminate|]. split; [discriminate|].
  split; [reflexivity|]. split; [reflexivity|].
  split; [reflexivity|]. split; [reflexivity|].
  apply (reported_total_is_sampled_span Sample.float_of_digits 60 None
           Sample.steady_then_more 0 Sample.steady_then_more_file);
    [discriminate | discriminate | reflexivity | reflexivity
    | reflexivity | reflexivity].
Defined.
